(** * runtime/php_assert.cpp: warnings, backtraces and fatal assertions

    A shallow embedding of [php_warning], [php_assert__],
    [print_demangled_adresses] and [is_address_inside_run_scheduler].

    The C++ code writes to stderr, keeps function-local statics, calls the
    critical-section guard, the warning callback, [raise] and [_exit].  Here
    a computation is a function from the mutable state to the list of
    observable actions it performs, in order, and either a normal return or
    a process exit. *)

From Stdlib Require Import ZArith List String Ascii Bool Lia DecimalString.
Import ListNotations.
Open Scope Z_scope.

(** ** Machine integers *)

(** [int] is 32 bits wide; [to_int] is the wrap-around of a mathematical
    integer into its range (also the cast [(int)time(nullptr)]). *)
Definition int_min : Z := - 2 ^ 31.
Definition int_max : Z := 2 ^ 31 - 1.
Definition to_int (z : Z) : Z := (z + 2 ^ 31) mod 2 ^ 32 - 2 ^ 31.
Definition in_int (z : Z) : Prop := int_min <= z <= int_max.

(** ** Process-wide variables read by the code *)

Record Globals := {
  engine_tag : string;                    (* const char *engine_tag = "[" *)
  engine_pid : string;                    (* const char *engine_pid = "] " *)
  php_disable_warnings : Z;               (* int php_disable_warnings = 0 *)
  php_warning_level : Z;                  (* int php_warning_level = 2 *)
  die_on_fail : Z;                        (* PHP/worker/php-engine-vars.h *)
  __start_run_scheduler_section : Z;      (* &__start_run_scheduler_section *)
  __stop_run_scheduler_section : Z        (* &__stop_run_scheduler_section *)
}.

(** ** Mutable state: the statics of [php_warning] and the guard depth *)

Record State := {
  warnings_printed : Z;        (* static int warnings_printed = 0 *)
  warnings_count_time : Z;     (* static int warnings_count_time = 0 *)
  skipped : Z;                 (* static int skipped = 0 *)
  in_critical_section : Z      (* dl::in_critical_section *)
}.

Definition initial_state : State :=
  {| warnings_printed := 0; warnings_count_time := 0; skipped := 0;
     in_critical_section := 0 |}.

(** ** What the environment answers during one call *)

Record Env := {
  time_at_entry : Z;           (* time(nullptr), line 86 *)
  time_at_resume : Z;          (* time(nullptr), line 92 *)
  call_stack : list Z;         (* return addresses fast_backtrace sees *)
  resumable_stack : list Z;    (* frames get_resumable_stack reports *)
  demangled : list Z -> Z -> option (list string);
                               (* get_demangled_backtrace: the trace_str
                                  lines, or None when it returns false *)
  pid : Z;                     (* getpid() *)
  proc_self_exe : option string; (* readlink("/proc/self/exe"), None if < 0 *)
  fork_pid : Z;                (* fork() *)
  later_syscalls : nat -> option string * Z
                               (* readlink and fork again, in the second (0)
                                  and the third (1) call of
                                  print_demangled_adresses of one report *)
}.

(** [readlink] and [fork] are system calls: each call of
    [print_demangled_adresses] gets answers of its own.  [at_call env k] is
    the environment of the call number [k] of one report, the first being
    number 0. *)
Definition at_call (env : Env) (k : nat) : Env :=
  match k with
  | O => env
  | S j =>
      {| time_at_entry := time_at_entry env;
         time_at_resume := time_at_resume env;
         call_stack := call_stack env;
         resumable_stack := resumable_stack env;
         demangled := demangled env;
         pid := pid env;
         proc_self_exe := fst (later_syscalls env j);
         fork_pid := snd (later_syscalls env j);
         later_syscalls := later_syscalls env |}
  end.

(** ** Observable actions *)

Inductive signal := SIGPHPASSERT.

Inductive event :=
| Resuming_writing_warnings (time skipped_count : Z)
    (* "[time=%d] Resuming writing warnings: %d skipped\n" *)
| Warnings_limit_reached (cur_time till : Z)
    (* "[time=%d] Warnings limit reached. No more will be printed till %d\n" *)
| Warning_prefix (tag : string) (cur_time : Z) (pid_str : string)
    (* "%s%d%sWarning: " *)
| Message_line (buf : string)
    (* "%s\n" *)
| Stack_Backtrace_header
    (* "------- Stack Backtrace -------\n" *)
| Pointer_line (address : Z)
    (* "%p\n" *)
| Trace_str (trace_str : string)
    (* "%s" *)
| Backtrace_symbols_fd (buffer : list Z) (fd : Z)
| Dup2 (oldfd newfd : Z)
| Execlp_gdb (name_buf pid_buf : string)
| Gdb_failed_to_start
    (* "Can't print backtrace with gdb: gdb failed to start\n" *)
| Waitpid (child_pid : Z)
| Gdb_fork_failed
    (* "Can't print backtrace with gdb: fork failed\n" *)
| Gdb_no_executable_name
    (* "Can't print backtrace with gdb: can't get name of executable file\n" *)
| Stack_Backtrace_footer
    (* "-------------------------------\n\n" *)
| Invoke_callback (message : string)
    (* OnKphpWarningCallback::get().invoke_callback(string(buf)) *)
| Raise (sig : signal)
| Exiting_in_php_warning
    (* "_exiting in php_warning, since such option is enabled\n" *)
| Exiting_in_php_assert
    (* "_exiting in php_assert\n" *).

(** ** The monad: state, ordered output, process exit *)

Inductive result (A : Type) :=
| Returned (a : A) (s : State)
| Exited (code : Z) (s : State).
Arguments Returned {A} a s.
Arguments Exited {A} code s.

Definition M (A : Type) : Type := State -> list event * result A.

Definition ret {A} (a : A) : M A := fun s => ([], Returned a s).

Definition bind {A B} (m : M A) (f : A -> M B) : M B :=
  fun s =>
    match m s with
    | (o1, Returned a s1) => let (o2, r) := f a s1 in (o1 ++ o2, r)
    | (o1, Exited c s1) => (o1, Exited c s1)
    end.

Notation "x <- m ;; k" := (bind m (fun x => k))
  (at level 61, m at next level, right associativity).
Notation "m ;; k" := (bind m (fun _ => k))
  (at level 61, right associativity).

Definition emit (e : event) : M unit := fun s => ([e], Returned tt s).
Definition gets {A} (f : State -> A) : M A := fun s => ([], Returned (f s) s).
Definition modify (f : State -> State) : M unit := fun s => ([], Returned tt (f s)).
Definition _exit {A} (code : Z) : M A := fun s => ([], Exited code s).
Definition raise (sig : signal) : M unit := emit (Raise sig).

Fixpoint for_each {A} (l : list A) (body : A -> M unit) : M unit :=
  match l with
  | [] => ret tt
  | x :: t => body x ;; for_each t body
  end.

Definition output {A} (p : list event * result A) : list event := fst p.
Definition outcome {A} (p : list event * result A) : result A := snd p.

Definition final_state {A} (r : result A) : State :=
  match r with Returned _ s => s | Exited _ s => s end.

(** Assignments to the statics. *)
Definition set_warnings_printed (v : Z) (s : State) : State :=
  {| warnings_printed := v; warnings_count_time := warnings_count_time s;
     skipped := skipped s; in_critical_section := in_critical_section s |}.
Definition set_warnings_count_time (v : Z) (s : State) : State :=
  {| warnings_printed := warnings_printed s; warnings_count_time := v;
     skipped := skipped s; in_critical_section := in_critical_section s |}.
Definition set_skipped (v : Z) (s : State) : State :=
  {| warnings_printed := warnings_printed s;
     warnings_count_time := warnings_count_time s;
     skipped := v; in_critical_section := in_critical_section s |}.
Definition set_in_critical_section (v : Z) (s : State) : State :=
  {| warnings_printed := warnings_printed s;
     warnings_count_time := warnings_count_time s;
     skipped := skipped s; in_critical_section := v |}.

(** ** Collaborators that are not part of this file *)

(** Modelled from the spec: [dl::enter_critical_section] and
    [dl::leave_critical_section] of runtime/critical_section.h, the scoped
    acquire and release of the guard; the depth counts the holders. *)
Definition enter_critical_section : M unit :=
  modify (fun s => set_in_critical_section (in_critical_section s + 1) s).
Definition leave_critical_section : M unit :=
  modify (fun s => set_in_critical_section (in_critical_section s - 1) s).

(** Modelled from the spec: [fast_backtrace] of common/fast-backtrace.h,
    which fills up to [max_frames] physical return addresses, innermost
    first, and truncates silently at the cap. *)
Definition fast_backtrace (env : Env) (max_frames : nat) : list Z :=
  firstn max_frames (call_stack env).

(** Modelled from the spec: [get_resumable_stack] of runtime/resumable.h,
    the saved logical frames of the current cooperative task, empty when
    there is none, at most [limit] of them. *)
Definition get_resumable_stack (env : Env) (limit : nat) : list Z :=
  firstn limit (resumable_stack env).

(** [vsnprintf(buf, size, message, args)] keeps at most [size - 1]
    characters of the expanded text. *)
Definition vsnprintf (size : nat) (expanded : string) : string :=
  substring 0 (size - 1) expanded.

(** ** is_address_inside_run_scheduler (lines 33-35) *)

Definition is_address_inside_run_scheduler (g : Globals) (address : Z) : bool :=
  (__start_run_scheduler_section g <=? address)
  && (address <=? __stop_run_scheduler_section g).

(** [std::find_if(first, last, pred) - first]: the position of the first
    element that satisfies [pred], the length when there is none. *)
Fixpoint find_if {A} (l : list A) (pred : A -> bool) : nat :=
  match l with
  | [] => 0%nat
  | x :: t => if pred x then 0%nat else S (find_if t pred)
  end.

(** ** print_demangled_adresses (lines 37-72)

    [buffer] and [nptrs] are the array argument and its length: the
    function reads [buffer[0 .. nptrs)].  At level 3 the answer 0 of [fork]
    is the forked copy of the process; the statements after [execlp] are
    reached only when [execlp] returns, and that continuation is the one
    written here. *)
Definition print_demangled_adresses (g : Globals) (env : Env)
    (buffer : list Z) (nptrs : Z) (num_shift : Z) : M unit :=
  let frames := firstn (Z.to_nat nptrs) buffer in
  if php_warning_level g =? 1 then
    for_each frames (fun p => emit (Pointer_line p))
  else if php_warning_level g =? 2 then
    match demangled env frames num_shift with
    | Some lines => for_each lines (fun trace_str => emit (Trace_str trace_str))
    | None => emit (Backtrace_symbols_fd frames 2)
    end
  else if php_warning_level g =? 3 then
    let pid_buf := NilZero.string_of_int (Z.to_int (pid env)) in
    match proc_self_exe env with
    | Some path =>
        let name_buf := substring 0 511 path in
        let child_pid := fork_pid env in
        if child_pid =? 0 then
          emit (Dup2 2 1) ;;
          emit (Execlp_gdb name_buf pid_buf) ;;
          emit Gdb_failed_to_start
        else if child_pid >? 0 then
          emit (Waitpid child_pid)
        else
          emit Gdb_fork_failed
    | None => emit Gdb_no_executable_name
    end
  else ret tt.

(** ** php_warning (lines 74-149)

    [expanded] is the text that [message] and its variadic arguments
    expand to. *)
Definition BUF_SIZE : nat := 1000.
Definition warnings_time_period : Z := 300.
Definition warnings_time_limit : Z := 1000.
Definition buffer_size : nat := 64.

Definition php_warning (g : Globals) (env : Env) (expanded : string) : M unit :=
  if (php_warning_level g =? 0) || negb (php_disable_warnings g =? 0) then
    ret tt
  else
    let cur_time := to_int (time_at_entry env) in
    count_time <- gets warnings_count_time ;;
    (if cur_time >=? to_int (count_time + warnings_time_period) then
       modify (set_warnings_printed 0) ;;
       modify (set_warnings_count_time cur_time) ;;
       sk <- gets skipped ;;
       if sk >? 0 then
         emit (Resuming_writing_warnings (to_int (time_at_resume env)) sk) ;;
         modify (set_skipped 0)
       else ret tt
     else ret tt) ;;
    modify (fun s => set_warnings_printed (to_int (warnings_printed s + 1)) s) ;;
    printed <- gets warnings_printed ;;
    if printed >=? warnings_time_limit then
      (if printed =? warnings_time_limit then
         count_time <- gets warnings_count_time ;;
         emit (Warnings_limit_reached cur_time
                 (to_int (count_time + warnings_time_period)))
       else ret tt) ;;
      modify (fun s => set_skipped (to_int (skipped s + 1)) s)
    else
      enter_critical_section ;;
      emit (Warning_prefix (engine_tag g) cur_time (engine_pid g)) ;;
      let buf := vsnprintf BUF_SIZE expanded in
      emit (Message_line buf) ;;
      (if php_warning_level g >=? 1 then
         emit Stack_Backtrace_header ;;
         let buffer := fast_backtrace env buffer_size in
         let nptrs := Z.of_nat (List.length buffer) in
         let nptrs :=
           if php_warning_level g =? 1
           then (if nptrs - 2 <? 0 then 0 else nptrs - 2)
           else nptrs in
         let scheduler_id :=
           Z.of_nat (find_if (firstn (Z.to_nat nptrs) buffer)
                             (is_address_inside_run_scheduler g)) in
         (if scheduler_id =? nptrs then
            print_demangled_adresses g env buffer nptrs 0
          else
            print_demangled_adresses g env buffer scheduler_id 0 ;;
            let buffer2 := get_resumable_stack env buffer_size in
            let res_ptrs := Z.of_nat (List.length buffer2) in
            print_demangled_adresses g (at_call env 1) buffer2 res_ptrs
              scheduler_id ;;
            print_demangled_adresses g (at_call env 2)
              (skipn (Z.to_nat scheduler_id) buffer)
              (nptrs - scheduler_id) (scheduler_id + res_ptrs)) ;;
         emit Stack_Backtrace_footer
       else ret tt) ;;
      leave_critical_section ;;
      depth <- gets in_critical_section ;;
      (if depth =? 0 then emit (Invoke_callback buf) else ret tt) ;;
      if negb (die_on_fail g =? 0) then
        raise SIGPHPASSERT ;;
        emit Exiting_in_php_warning ;;
        _exit 1
      else ret tt.

(** ** php_assert__ (lines 151-156) *)

Definition double_quote : string := String (ascii_of_nat 34) EmptyString.

(** The expansion of
    [Assertion "%s" failed in file %s on line %d] with [msg], [file], [line]. *)
Definition assertion_text (msg file : string) (line : Z) : string :=
  ("Assertion " ++ double_quote ++ msg ++ double_quote ++ " failed in file "
   ++ file ++ " on line " ++ NilZero.string_of_int (Z.to_int line))%string.

Definition php_assert__ (g : Globals) (env : Env)
    (msg file : string) (line : Z) : M unit :=
  php_warning g env (assertion_text msg file line) ;;
  raise SIGPHPASSERT ;;
  emit Exiting_in_php_assert ;;
  _exit 1.

(** ** raise_php_assert_signal__ (lines 158-160) *)
Definition raise_php_assert_signal__ : M unit := raise SIGPHPASSERT.

(** ** Running several emissions one after the other *)

Definition php_warnings (g : Globals) (calls : list (Env * string)) : M unit :=
  for_each calls (fun c => php_warning g (fst c) (snd c)).

(** ** Notions used to state the properties *)

(** What the renderer writes for a sequence of frames. *)
Definition rendering (g : Globals) (env : Env) (frames : list Z) (num_shift : Z)
  : list event :=
  output (print_demangled_adresses g env frames (Z.of_nat (List.length frames))
            num_shift initial_state).

(** A report starts with the ["%s%d%sWarning: "] prefix. *)
Definition is_report_start (e : event) : bool :=
  match e with Warning_prefix _ _ _ => true | _ => false end.

(** The events that belong to a report: prefix, message, backtrace. *)
Definition is_report_event (e : event) : bool :=
  match e with
  | Warning_prefix _ _ _ | Message_line _ | Stack_Backtrace_header
  | Pointer_line _ | Trace_str _ | Backtrace_symbols_fd _ _ | Dup2 _ _
  | Execlp_gdb _ _ | Gdb_failed_to_start | Waitpid _ | Gdb_fork_failed
  | Gdb_no_executable_name | Stack_Backtrace_footer => true
  | _ => false
  end.

Definition is_callback (e : event) : bool :=
  match e with Invoke_callback _ => true | _ => false end.

(** Number of reports rendered in an output. *)
Definition rendered (out : list event) : nat :=
  List.length (filter is_report_start out).

(** The frames [php_warning] works on: the capture, and at level 1 the
    capture without its last two frames (lines 118-124). *)
Definition captured (env : Env) : list Z := fast_backtrace env buffer_size.

Definition classify (g : Globals) (frames : list Z) : nat :=
  find_if frames (is_address_inside_run_scheduler g).

(** The cast time of a call and the window it falls in. *)
Definition cur_time_of (env : Env) : Z := to_int (time_at_entry env).

Definition opens_window (s : State) (env : Env) : Prop :=
  to_int (warnings_count_time s + warnings_time_period) <= cur_time_of env.

Definition inside_window (start : Z) (c : Env * string) : Prop :=
  cur_time_of (fst c) < to_int (start + warnings_time_period).

Definition enabled (g : Globals) : Prop :=
  php_warning_level g <> 0 /\ php_disable_warnings g = 0.

(** The state after the window check of lines 88-95, and the notice the
    check writes. *)
Definition rolls_over (env : Env) (s : State) : bool :=
  cur_time_of env >=? to_int (warnings_count_time s + warnings_time_period).

Definition window_state (env : Env) (s : State) : State :=
  if rolls_over env s then
    {| warnings_printed := 0;
       warnings_count_time := cur_time_of env;
       skipped := if skipped s >? 0 then 0 else skipped s;
       in_critical_section := in_critical_section s |}
  else s.

Definition resume_notice (env : Env) (s : State) : list event :=
  if rolls_over env s && (skipped s >? 0)
  then [Resuming_writing_warnings (to_int (time_at_resume env)) (skipped s)]
  else [].

(** The frames the backtrace block of lines 118-135 prints from. *)
Definition printed_frames (g : Globals) (env : Env) : list Z :=
  if php_warning_level g =? 1
  then firstn (List.length (captured env) - 2) (captured env)
  else captured env.

Definition cooperative (env : Env) : list Z :=
  get_resumable_stack env buffer_size.

Definition spliced (g : Globals) (env : Env) : list event :=
  let frames := printed_frames g env in
  let i := classify g frames in
  if (i =? List.length frames)%nat then rendering g env frames 0
  else rendering g env (firstn i frames) 0
       ++ rendering g (at_call env 1) (cooperative env) (Z.of_nat i)
       ++ rendering g (at_call env 2) (skipn i frames)
            (Z.of_nat i + Z.of_nat (List.length (cooperative env))).

Definition backtrace (g : Globals) (env : Env) : list event :=
  if php_warning_level g >=? 1
  then Stack_Backtrace_header :: spliced g env ++ [Stack_Backtrace_footer]
  else [].

Definition report (g : Globals) (env : Env) (expanded : string) (depth : Z)
  : list event :=
  Warning_prefix (engine_tag g) (cur_time_of env) (engine_pid g)
  :: Message_line (vsnprintf BUF_SIZE expanded)
  :: backtrace g env
  ++ (if depth =? 0 then [Invoke_callback (vsnprintf BUF_SIZE expanded)] else [])
  ++ (if die_on_fail g =? 0 then []
      else [Raise SIGPHPASSERT; Exiting_in_php_warning]).

(** Two blocks of [php_warning] under names of their own, for the proofs:
    the window check of lines 88-95 and the frame printing of lines
    117-135.  [php_warning_blocks] shows that [php_warning] is made of
    them. *)
Definition window_check (env : Env) : M unit :=
  let cur_time := to_int (time_at_entry env) in
  count_time <- gets warnings_count_time ;;
  if cur_time >=? to_int (count_time + warnings_time_period) then
    modify (set_warnings_printed 0) ;;
    modify (set_warnings_count_time cur_time) ;;
    sk <- gets skipped ;;
    if sk >? 0 then
      emit (Resuming_writing_warnings (to_int (time_at_resume env)) sk) ;;
      modify (set_skipped 0)
    else ret tt
  else ret tt.

Definition print_frames (g : Globals) (env : Env) : M unit :=
  let buffer := fast_backtrace env buffer_size in
  let nptrs := Z.of_nat (List.length buffer) in
  let nptrs :=
    if php_warning_level g =? 1
    then (if nptrs - 2 <? 0 then 0 else nptrs - 2)
    else nptrs in
  let scheduler_id :=
    Z.of_nat (find_if (firstn (Z.to_nat nptrs) buffer)
                      (is_address_inside_run_scheduler g)) in
  if scheduler_id =? nptrs then
    print_demangled_adresses g env buffer nptrs 0
  else
    print_demangled_adresses g env buffer scheduler_id 0 ;;
    let buffer2 := get_resumable_stack env buffer_size in
    let res_ptrs := Z.of_nat (List.length buffer2) in
    print_demangled_adresses g (at_call env 1) buffer2 res_ptrs scheduler_id ;;
    print_demangled_adresses g (at_call env 2)
      (skipn (Z.to_nat scheduler_id) buffer)
      (nptrs - scheduler_id) (scheduler_id + res_ptrs).

(** The output of a computation that runs after [o] was written. *)
Definition prepend {A} (o : list event) (p : list event * result A)
  : list event * result A :=
  (o ++ fst p, snd p).

(** A call passes the rate gate of line 97 when the count, after the
    window check and the increment, is still below the limit. *)
Definition passes_rate_gate (env : Env) (s : State) : Prop :=
  to_int (warnings_printed (window_state env s) + 1) < warnings_time_limit.

(** The events the renderer can write. *)
Definition is_frame_event (e : event) : bool :=
  match e with
  | Pointer_line _ | Trace_str _ | Backtrace_symbols_fd _ _ | Dup2 _ _
  | Execlp_gdb _ _ | Gdb_failed_to_start | Waitpid _ | Gdb_fork_failed
  | Gdb_no_executable_name => true
  | _ => false
  end.

(** The reports of a list of calls, all made at critical-section depth
    [depth]. *)
Definition reports (g : Globals) (depth : Z) (calls : list (Env * string))
  : list event :=
  flat_map (fun c => report g (fst c) (snd c) depth) calls.

(** The line written by the call that reaches the limit, if there is one:
    it is call number [warnings_time_limit] of its window. *)
Definition limit_notice (start : Z) (calls : list (Env * string)) : list event :=
  match nth_error calls (Z.to_nat (warnings_time_limit - 1)) with
  | Some c => [Warnings_limit_reached (cur_time_of (fst c))
                 (to_int (start + warnings_time_period))]
  | None => []
  end.

(** Kinds of events counted in the properties below. *)
Definition is_raise (e : event) : bool :=
  match e with Raise _ => true | _ => false end.

Definition is_limit_notice (e : event) : bool :=
  match e with Warnings_limit_reached _ _ => true | _ => false end.

Definition is_pointer_line (e : event) : bool :=
  match e with Pointer_line _ => true | _ => false end.

(** The texts taken from [buf]: the message line and the callback argument. *)
Definition message_texts (out : list event) : list string :=
  flat_map (fun e => match e with
                     | Message_line m | Invoke_callback m => [m]
                     | _ => []
                     end) out.

(** ** Concrete inputs *)

Definition example_globals (level die : Z) : Globals :=
  {| engine_tag := "[";
     engine_pid := "] ";
     php_disable_warnings := 0;
     php_warning_level := level;
     die_on_fail := die;
     __start_run_scheduler_section := 100;
     __stop_run_scheduler_section := 200 |}.

Definition example_env (t : Z) (stack coop : list Z) : Env :=
  {| time_at_entry := t;
     time_at_resume := t;
     call_stack := stack;
     resumable_stack := coop;
     demangled := fun _ _ => None;
     pid := 4242;
     proc_self_exe := Some "/usr/bin/engine"%string;
     fork_pid := 4243;
     later_syscalls :=
       fun k => (Some "/usr/bin/engine"%string, 4244 + Z.of_nat k) |}.

(** Globals whose stop symbol lies below the start symbol. *)
Definition example_empty_region : Globals :=
  {| engine_tag := "[";
     engine_pid := "] ";
     php_disable_warnings := 0;
     php_warning_level := 2;
     die_on_fail := 0;
     __start_run_scheduler_section := 200;
     __stop_run_scheduler_section := 100 |}.

(** Frames whose second address lies in the region of [example_globals]. *)
Definition example_frames : list Z := [10; 150; 160].

(** A window opened at second 1000 in which 999 warnings were rendered. *)
Definition example_full_window : State :=
  {| warnings_printed := 999; warnings_count_time := 1000; skipped := 0;
     in_critical_section := 0 |}.

Definition example_spliced_env : Env :=
  example_env 1000 [10; 20; 150; 40; 50; 60] [7; 8].


(** [n] warnings in a row at second [t], with an empty stack. *)
Definition burst (t : Z) (n : nat) : list (Env * string) :=
  repeat (example_env t [] [], "w"%string) n.

(** * Basic facts *)

Lemma to_int_small (z : Z) : in_int z -> to_int z = z.
Proof.
  unfold in_int, int_min, int_max, to_int. intros H.
  rewrite Z.mod_small; lia.
Qed.

Lemma to_int_range (z : Z) : in_int (to_int z).
Proof.
  unfold in_int, int_min, int_max, to_int.
  pose proof (Z.mod_pos_bound (z + 2 ^ 31) (2 ^ 32)). lia.
Qed.

Lemma for_each_emit (A : Type) (f : A -> event) (l : list A) (s : State) :
  for_each l (fun x => emit (f x)) s = (map f l, Returned tt s).
Proof.
  induction l as [|x t IH]; simpl; [reflexivity|].
  unfold bind at 1. unfold emit at 1. rewrite IH. reflexivity.
Qed.

(** The renderer only writes: it leaves the state alone and returns. *)
Lemma print_demangled_adresses_pure g env buffer nptrs num_shift s :
  print_demangled_adresses g env buffer nptrs num_shift s =
  (output (print_demangled_adresses g env buffer nptrs num_shift initial_state),
   Returned tt s).
Proof.
  unfold print_demangled_adresses.
  destruct (php_warning_level g =? 1).
  { rewrite !for_each_emit. reflexivity. }
  destruct (php_warning_level g =? 2).
  { destruct (demangled env _ num_shift); [rewrite !for_each_emit|]; reflexivity. }
  destruct (php_warning_level g =? 3); [|reflexivity].
  destruct (proc_self_exe env); [|reflexivity].
  destruct (fork_pid env =? 0); [reflexivity|].
  destruct (fork_pid env >? 0); reflexivity.
Qed.

(** The renderer reads [buffer[0 .. nptrs)] only. *)
Lemma print_demangled_adresses_slice g env buffer nptrs num_shift s :
  print_demangled_adresses g env buffer nptrs num_shift s =
  (rendering g env (firstn (Z.to_nat nptrs) buffer) num_shift, Returned tt s).
Proof.
  rewrite print_demangled_adresses_pure. unfold rendering.
  f_equal. f_equal.
  unfold print_demangled_adresses.
  rewrite Nat2Z.id, firstn_all. reflexivity.
Qed.

(** * php_warning, case by case *)

Lemma php_warning_disabled g env expanded s :
  (php_warning_level g =? 0) || negb (php_disable_warnings g =? 0) = true ->
  php_warning g env expanded s = ([], Returned tt s).
Proof.
  intros H. unfold php_warning. rewrite H. reflexivity.
Qed.

Lemma state_eta (s : State) :
  {| warnings_printed := warnings_printed s;
     warnings_count_time := warnings_count_time s;
     skipped := skipped s;
     in_critical_section := in_critical_section s |} = s.
Proof. destruct s; reflexivity. Qed.

Lemma print_frames_spliced g env s :
  print_frames g env s = (spliced g env, Returned tt s).
Proof.
  unfold print_frames. cbv zeta.
  set (B := fast_backtrace env buffer_size).
  set (nptrs := if php_warning_level g =? 1
                then (if Z.of_nat (List.length B) - 2 <? 0 then 0
                      else Z.of_nat (List.length B) - 2)
                else Z.of_nat (List.length B)).
  assert (HF : firstn (Z.to_nat nptrs) B = printed_frames g env).
  { unfold printed_frames, captured. fold B. subst nptrs.
    destruct (php_warning_level g =? 1).
    - f_equal. destruct (Z.ltb_spec (Z.of_nat (List.length B) - 2) 0); lia.
    - rewrite Nat2Z.id. apply firstn_all. }
  assert (Hn : nptrs = Z.of_nat (List.length (printed_frames g env))).
  { rewrite <- HF, length_firstn. subst nptrs.
    destruct (php_warning_level g =? 1); [|lia].
    destruct (Z.ltb_spec (Z.of_nat (List.length B) - 2) 0); lia. }
  rewrite HF. unfold spliced. fold (classify g (printed_frames g env)).
  set (F := printed_frames g env) in *.
  assert (Hle : (classify g F <= List.length F)%nat).
  { unfold classify. clear. induction F as [|a F IH]; simpl; [lia|].
    destruct (is_address_inside_run_scheduler g a); lia. }
  assert (HF' : firstn (List.length F) B = F).
  { rewrite <- HF at 2. f_equal. lia. }
  rewrite Hn. clear HF Hn. clearbody F. clear nptrs.
  destruct (Nat.eqb_spec (classify g F) (List.length F)) as [E|E].
  - rewrite E, Z.eqb_refl. rewrite print_demangled_adresses_slice.
    rewrite Nat2Z.id, HF'. reflexivity.
  - destruct (Z.eqb_spec (Z.of_nat (classify g F)) (Z.of_nat (List.length F)));
      [lia|].
    unfold bind. rewrite !print_demangled_adresses_slice.
    rewrite !Nat2Z.id, firstn_all.
    replace (firstn (classify g F) B) with (firstn (classify g F) F).
    2:{ transitivity (firstn (classify g F) (firstn (List.length F) B));
          [now rewrite HF'|].
        rewrite firstn_firstn. f_equal. lia. }
    replace (firstn (Z.to_nat (Z.of_nat (List.length F) - Z.of_nat (classify g F)))
               (skipn (classify g F) B))
      with (skipn (classify g F) F).
    2:{ transitivity (skipn (classify g F) (firstn (List.length F) B));
          [now rewrite HF'|].
        rewrite skipn_firstn_comm. f_equal. lia. }
    unfold cooperative. reflexivity.
Qed.

Lemma enabled_gate g :
  enabled g ->
  (php_warning_level g =? 0) || negb (php_disable_warnings g =? 0) = false.
Proof.
  intros [Hl Hd]. rewrite Hd. simpl.
  destruct (Z.eqb_spec (php_warning_level g) 0); [contradiction|reflexivity].
Qed.

Lemma bind_assoc (A B C : Type) (m : M A) (f : A -> M B) (k : B -> M C) s :
  bind (bind m f) k s = bind m (fun a => bind (f a) k) s.
Proof.
  unfold bind. destruct (m s) as [o1 [a s1|c s1]]; [|reflexivity].
  destruct (f a s1) as [o2 [b s2|c s2]]; [|reflexivity].
  destruct (k b s2) as [o3 r]. rewrite app_assoc. reflexivity.
Qed.

Lemma bind_returned (A B : Type) (m : M A) (f : A -> M B) s o a s1 :
  m s = (o, Returned a s1) -> bind m f s = prepend o (f a s1).
Proof.
  intros H. unfold bind, prepend. rewrite H. destruct (f a s1); reflexivity.
Qed.

Lemma bind_emit (B : Type) e (f : unit -> M B) s :
  bind (emit e) f s = prepend [e] (f tt s).
Proof. apply bind_returned. reflexivity. Qed.

Lemma bind_modify (B : Type) h (f : unit -> M B) s :
  bind (modify h) f s = f tt (h s).
Proof.
  rewrite (bind_returned _ _ _ _ s [] tt (h s)) by reflexivity.
  unfold prepend. destruct (f tt (h s)); reflexivity.
Qed.

Lemma bind_gets (A B : Type) (h : State -> A) (f : A -> M B) s :
  bind (gets h) f s = f (h s) s.
Proof.
  rewrite (bind_returned _ _ _ _ s [] (h s) s) by reflexivity.
  unfold prepend. destruct (f (h s) s); reflexivity.
Qed.

Lemma prepend_pair (A : Type) o o' (r : result A) :
  prepend o (o', r) = (o ++ o', r).
Proof. reflexivity. Qed.

Lemma prepend_prepend (A : Type) o o' (p : list event * result A) :
  prepend o (prepend o' p) = prepend (o ++ o') p.
Proof. unfold prepend. simpl. rewrite app_assoc. reflexivity. Qed.

Lemma php_warning_blocks g env expanded s :
  php_warning g env expanded s =
  (if (php_warning_level g =? 0) || negb (php_disable_warnings g =? 0) then
    ret tt
  else
    window_check env ;;
    modify (fun s => set_warnings_printed (to_int (warnings_printed s + 1)) s) ;;
    printed <- gets warnings_printed ;;
    if printed >=? warnings_time_limit then
      (if printed =? warnings_time_limit then
         count_time <- gets warnings_count_time ;;
         emit (Warnings_limit_reached (cur_time_of env)
                 (to_int (count_time + warnings_time_period)))
       else ret tt) ;;
      modify (fun s => set_skipped (to_int (skipped s + 1)) s)
    else
      enter_critical_section ;;
      emit (Warning_prefix (engine_tag g) (cur_time_of env) (engine_pid g)) ;;
      emit (Message_line (vsnprintf BUF_SIZE expanded)) ;;
      (if php_warning_level g >=? 1 then
         emit Stack_Backtrace_header ;;
         print_frames g env ;;
         emit Stack_Backtrace_footer
       else ret tt) ;;
      leave_critical_section ;;
      depth <- gets in_critical_section ;;
      (if depth =? 0
       then emit (Invoke_callback (vsnprintf BUF_SIZE expanded))
       else ret tt) ;;
      if negb (die_on_fail g =? 0) then
        raise SIGPHPASSERT ;;
        emit Exiting_in_php_warning ;;
        _exit 1
      else ret tt) s.
Proof.
  unfold php_warning, window_check.
  destruct ((php_warning_level g =? 0) || negb (php_disable_warnings g =? 0));
    [reflexivity|].
  cbv zeta. rewrite bind_assoc. reflexivity.
Qed.

Lemma window_check_run env s :
  window_check env s = (resume_notice env s, Returned tt (window_state env s)).
Proof.
  unfold window_check, resume_notice, window_state, rolls_over, cur_time_of.
  destruct s as [wp wct sk cs]. cbn.
  destruct (to_int (time_at_entry env) >=? to_int (wct + warnings_time_period));
    [|reflexivity].
  cbn. destruct (sk >? 0); reflexivity.
Qed.

(** With diagnostics enabled, a call either is counted as skipped or
    renders its report; the window check comes first in both cases. *)
Lemma php_warning_enabled g env expanded s :
  enabled g ->
  let s1 := window_state env s in
  let n := to_int (warnings_printed s1 + 1) in
  php_warning g env expanded s =
  if n >=? warnings_time_limit then
    (resume_notice env s
     ++ (if n =? warnings_time_limit
         then [Warnings_limit_reached (cur_time_of env)
                 (to_int (warnings_count_time s1 + warnings_time_period))]
         else []),
     Returned tt (set_skipped (to_int (skipped s1 + 1))
                    (set_warnings_printed n s1)))
  else
    (resume_notice env s ++ report g env expanded (in_critical_section s),
     (if die_on_fail g =? 0 then Returned tt else Exited 1)
       (set_warnings_printed n s1)).
Proof.
  intros Hen. cbv zeta.
  rewrite php_warning_blocks, (enabled_gate g Hen).
  rewrite (bind_returned _ _ _ _ _ _ _ _ (window_check_run env s)).
  assert (Hcs : in_critical_section (window_state env s) = in_critical_section s).
  { unfold window_state. destruct (rolls_over env s); reflexivity. }
  revert Hcs. generalize (window_state env s) as s1.
  generalize (resume_notice env s) as notice.
  intros notice [wp wct sk cs] Hcs. cbn in Hcs. subst cs.
  rewrite bind_modify, bind_gets.
  cbn [set_warnings_printed warnings_printed warnings_count_time skipped in_critical_section].
  destruct (to_int (wp + 1) >=? warnings_time_limit).
  - destruct (to_int (wp + 1) =? warnings_time_limit).
    + rewrite bind_assoc, bind_gets, bind_emit. reflexivity.
    + rewrite bind_returned with (o := []) (a := tt) (s1 := {|
             warnings_printed := to_int (wp + 1);
             warnings_count_time := wct;
             skipped := sk;
             in_critical_section := in_critical_section s
           |}) by reflexivity.
      unfold prepend. cbn. rewrite !app_nil_r. reflexivity.
  - unfold enter_critical_section, leave_critical_section.
    rewrite bind_modify, !bind_emit.
    unfold report, backtrace.
    destruct (php_warning_level g >=? 1).
    + rewrite bind_assoc, bind_emit, bind_assoc.
      rewrite (bind_returned _ _ _ _ _ _ _ _ (print_frames_spliced g env _)).
      rewrite bind_emit, bind_modify, bind_gets.
      cbn [set_in_critical_section set_warnings_printed warnings_printed
           warnings_count_time skipped in_critical_section].
      rewrite Z.add_simpl_r.
      destruct (in_critical_section s =? 0), (die_on_fail g =? 0);
        unfold prepend; cbn; rewrite <- ?app_assoc; reflexivity.
    + rewrite bind_returned with (o := []) (a := tt) (s1 := {|
             warnings_printed := to_int (wp + 1);
             warnings_count_time := wct;
             skipped := sk;
             in_critical_section := in_critical_section s + 1
           |}) by reflexivity.
      rewrite bind_modify, bind_gets.
      cbn [set_in_critical_section set_warnings_printed warnings_printed
           warnings_count_time skipped in_critical_section].
      rewrite Z.add_simpl_r.
      destruct (in_critical_section s =? 0), (die_on_fail g =? 0);
        unfold prepend; cbn; rewrite <- ?app_assoc; reflexivity.
Qed.

Lemma php_warning_report g env expanded s :
  enabled g -> passes_rate_gate env s ->
  php_warning g env expanded s =
  (resume_notice env s ++ report g env expanded (in_critical_section s),
   (if die_on_fail g =? 0 then Returned tt else Exited 1)
     (set_warnings_printed (to_int (warnings_printed (window_state env s) + 1))
        (window_state env s))).
Proof.
  intros Hen Hgate. rewrite (php_warning_enabled g env expanded s Hen).
  unfold passes_rate_gate in Hgate. cbv zeta.
  destruct (Z.geb_spec (to_int (warnings_printed (window_state env s) + 1))
              warnings_time_limit); [lia|reflexivity].
Qed.

Lemma php_warning_skipped g env expanded s :
  enabled g -> ~ passes_rate_gate env s ->
  let s1 := window_state env s in
  let n := to_int (warnings_printed s1 + 1) in
  php_warning g env expanded s =
  (resume_notice env s
   ++ (if n =? warnings_time_limit
       then [Warnings_limit_reached (cur_time_of env)
               (to_int (warnings_count_time s1 + warnings_time_period))]
       else []),
   Returned tt (set_skipped (to_int (skipped s1 + 1))
                  (set_warnings_printed n s1))).
Proof.
  intros Hen Hgate. cbv zeta. rewrite (php_warning_enabled g env expanded s Hen).
  unfold passes_rate_gate in Hgate. cbv zeta.
  destruct (Z.geb_spec (to_int (warnings_printed (window_state env s) + 1))
              warnings_time_limit); [reflexivity|lia].
Qed.

(** ** What the output is made of *)

Lemma rendering_frame_events g env frames num_shift :
  Forall (fun e => is_frame_event e = true) (rendering g env frames num_shift).
Proof.
  unfold rendering, print_demangled_adresses.
  destruct (php_warning_level g =? 1).
  { rewrite for_each_emit. apply Forall_forall. intros e He.
    apply in_map_iff in He. destruct He as [p [<- _]]. reflexivity. }
  destruct (php_warning_level g =? 2).
  { destruct (demangled env _ num_shift).
    - rewrite for_each_emit. apply Forall_forall. intros e He.
      apply in_map_iff in He. destruct He as [p [<- _]]. reflexivity.
    - repeat constructor. }
  destruct (php_warning_level g =? 3); [|constructor].
  destruct (proc_self_exe env); [|repeat constructor].
  destruct (fork_pid env =? 0); [repeat constructor|].
  destruct (fork_pid env >? 0); repeat constructor.
Qed.

Lemma filter_none (A : Type) (p : A -> bool) (l : list A) :
  Forall (fun x => p x = false) l -> filter p l = [].
Proof.
  induction 1 as [|x l Hx _ IH]; simpl; [reflexivity|]. now rewrite Hx.
Qed.

Lemma spliced_frame_events g env :
  Forall (fun e => is_frame_event e = true) (spliced g env).
Proof.
  unfold spliced.
  destruct (classify g (printed_frames g env) =? _)%nat;
    rewrite ?Forall_app; repeat split; apply rendering_frame_events.
Qed.

Lemma filter_frame_events (p : event -> bool) (l : list event) :
  (forall e, is_frame_event e = true -> p e = false) ->
  Forall (fun e => is_frame_event e = true) l -> filter p l = [].
Proof.
  intros Hp Hl. apply filter_none. eapply Forall_impl; [|exact Hl].
  intros e He. now apply Hp.
Qed.

Lemma is_report_start_frame e : is_frame_event e = true -> is_report_start e = false.
Proof. destruct e; simpl; congruence. Qed.

Lemma is_callback_frame e : is_frame_event e = true -> is_callback e = false.
Proof. destruct e; simpl; congruence. Qed.

Lemma filter_backtrace (p : event -> bool) g env :
  (forall e, is_frame_event e = true -> p e = false) ->
  p Stack_Backtrace_header = false -> p Stack_Backtrace_footer = false ->
  filter p (backtrace g env) = [].
Proof.
  intros Hp Hh Hf. unfold backtrace.
  destruct (php_warning_level g >=? 1); [|reflexivity].
  simpl. rewrite Hh, filter_app.
  rewrite (filter_frame_events p _ Hp (spliced_frame_events g env)).
  simpl. now rewrite Hf.
Qed.

Lemma resume_notice_cases env s :
  resume_notice env s = []
  \/ resume_notice env s =
     [Resuming_writing_warnings (to_int (time_at_resume env)) (skipped s)].
Proof.
  unfold resume_notice. destruct (rolls_over env s && (skipped s >? 0)); auto.
Qed.

Lemma rendered_report g env expanded depth :
  rendered (report g env expanded depth) = 1%nat.
Proof.
  unfold rendered, report. simpl. rewrite !filter_app.
  rewrite (filter_backtrace is_report_start g env is_report_start_frame)
    by reflexivity.
  destruct (depth =? 0), (die_on_fail g =? 0); reflexivity.
Qed.

Lemma callbacks_report g env expanded depth :
  filter is_callback (report g env expanded depth) =
  if depth =? 0 then [Invoke_callback (vsnprintf BUF_SIZE expanded)] else [].
Proof.
  unfold report. simpl. rewrite !filter_app.
  rewrite (filter_backtrace is_callback g env is_callback_frame) by reflexivity.
  destruct (depth =? 0), (die_on_fail g =? 0); reflexivity.
Qed.

(** * The scheduler region and the boundary *)

(** C8, as stated, fails: the address equal to the region's end bound
    [__stop_run_scheduler_section] is classified as inside, although it is
    outside the half-open range. *)
Lemma end_bound_is_inside :
  is_address_inside_run_scheduler (example_globals 2 0) 200 = true
  /\ ~ (__start_run_scheduler_section (example_globals 2 0) <= 200
        < __stop_run_scheduler_section (example_globals 2 0)).
Proof.
  split; [reflexivity|]. simpl. lia.
Qed.

(** C8, amended: membership in the scheduler region is decided by the
    closed range: an address is inside exactly when
    [start <= a <= stop], both bounds included. *)
Theorem inside_run_scheduler_closed_range (g : Globals) (a : Z) :
  is_address_inside_run_scheduler g a = true
  <-> __start_run_scheduler_section g <= a <= __stop_run_scheduler_section g.
Proof.
  unfold is_address_inside_run_scheduler.
  rewrite andb_true_iff, !Z.leb_le. reflexivity.
Qed.

Lemma find_if_le (A : Type) (pred : A -> bool) (l : list A) :
  (find_if l pred <= List.length l)%nat.
Proof.
  induction l as [|x t IH]; simpl; [lia|]. destruct (pred x); lia.
Qed.

Lemma find_if_none (A : Type) (pred : A -> bool) (l : list A) :
  Forall (fun x => pred x = false) l -> find_if l pred = List.length l.
Proof.
  induction 1 as [|x t Hx _ IH]; simpl; [reflexivity|]. now rewrite Hx, IH.
Qed.


Lemma find_if_is_length (A : Type) (pred : A -> bool) (l : list A) :
  find_if l pred = List.length l -> Forall (fun x => pred x = false) l.
Proof.
  induction l as [|x t IH]; simpl; intros H; [constructor|].
  destruct (pred x) eqn:Ex; [discriminate|].
  constructor; [exact Ex|]. apply IH. lia.
Qed.







Lemma rendering_level1 g env frames num_shift :
  php_warning_level g = 1 ->
  rendering g env frames num_shift = map Pointer_line frames.
Proof.
  intros H. unfold rendering, print_demangled_adresses. rewrite H. simpl.
  rewrite for_each_emit, Nat2Z.id, firstn_all. reflexivity.
Qed.





(** * Level 1 *)

(** C6, as stated, fails: at level 1 three frames are captured and the
    backtrace has a single line, because the last two captured frames are
    dropped before printing. *)
Lemma level1_drops_two_frames :
  captured (example_env 1000 [10; 20; 30] []) = [10; 20; 30]
  /\ output (php_warning (example_globals 1 0)
               (example_env 1000 [10; 20; 30] []) "w" initial_state)
     = [Warning_prefix "[" 1000 "] "; Message_line "w"; Stack_Backtrace_header;
        Pointer_line 10;
        Stack_Backtrace_footer; Invoke_callback "w"].
Proof.
  split; vm_compute; reflexivity.
Qed.

(** C6, amended: at level 1 the backtrace of a rendered event consists of
    bare address lines only, one per frame of the capture without its last
    two frames, in capture order; when one of these frames lies in the
    scheduler region, one line per cooperative frame is inserted before the
    first such frame. *)
Theorem level1_backtrace_lines (g : Globals) (env : Env) (expanded : string)
    (s : State) :
  php_warning_level g = 1 -> php_disable_warnings g = 0 ->
  passes_rate_gate env s ->
  let frames := firstn (List.length (captured env) - 2) (captured env) in
  let i := classify g frames in
  output (php_warning g env expanded s) =
  resume_notice env s
  ++ [Warning_prefix (engine_tag g) (cur_time_of env) (engine_pid g);
      Message_line (vsnprintf BUF_SIZE expanded);
      Stack_Backtrace_header]
  ++ map Pointer_line
       (if (i =? List.length frames)%nat then frames
        else firstn i frames ++ cooperative env ++ skipn i frames)
  ++ [Stack_Backtrace_footer]
  ++ (if in_critical_section s =? 0
      then [Invoke_callback (vsnprintf BUF_SIZE expanded)] else [])
  ++ (if die_on_fail g =? 0 then []
      else [Raise SIGPHPASSERT; Exiting_in_php_warning]).
Proof.
  intros Hlevel Hdis Hgate. cbv zeta.
  assert (Hen : enabled g) by (split; [rewrite Hlevel; discriminate|exact Hdis]).
  rewrite (php_warning_report g env expanded s Hen Hgate).
  unfold output, fst, report, backtrace, spliced, printed_frames.
  rewrite Hlevel. simpl (1 =? 1). simpl (1 >=? 1). cbv iota.
  set (F := firstn (List.length (captured env) - 2) (captured env)).
  destruct (classify g F =? List.length F)%nat.
  - rewrite rendering_level1 by exact Hlevel.
    simpl. rewrite <- !app_assoc. reflexivity.
  - rewrite !rendering_level1 by exact Hlevel.
    rewrite !map_app. simpl. rewrite <- !app_assoc. reflexivity.
Qed.

Lemma level1_backtrace_lines_witness :
  output (php_warning (example_globals 1 0) example_spliced_env "w"
            initial_state)
  = [Warning_prefix "[" 1000 "] "; Message_line "w"; Stack_Backtrace_header;
     Pointer_line 10; Pointer_line 20;
     Pointer_line 7; Pointer_line 8;
     Pointer_line 150; Pointer_line 40;
     Stack_Backtrace_footer; Invoke_callback "w"].
Proof.
  apply (level1_backtrace_lines (example_globals 1 0) example_spliced_env
           "w"%string initial_state).
  - reflexivity.
  - reflexivity.
  - vm_compute. reflexivity.
Defined.

(** * The critical section and the callback *)

Lemma window_state_depth env s :
  in_critical_section (window_state env s) = in_critical_section s.
Proof. unfold window_state. destruct (rolls_over env s); reflexivity. Qed.

(** C7: whatever path a call takes, the critical-section depth when it
    returns, or when it exits the process, is the depth on entry. *)
Theorem critical_section_released (g : Globals) (env : Env)
    (expanded : string) (s : State) :
  in_critical_section (final_state (outcome (php_warning g env expanded s)))
  = in_critical_section s.
Proof.
  destruct ((php_warning_level g =? 0) || negb (php_disable_warnings g =? 0))
    eqn:Egate.
  - rewrite php_warning_disabled by exact Egate. reflexivity.
  - assert (Hen : enabled g).
    { apply orb_false_elim in Egate. destruct Egate as [Hl Hd].
      apply Z.eqb_neq in Hl. apply negb_false_iff, Z.eqb_eq in Hd. now split. }
    rewrite (php_warning_enabled g env expanded s Hen). cbv zeta.
    destruct (_ >=? warnings_time_limit).
    + simpl. apply window_state_depth.
    + destruct (die_on_fail g =? 0); simpl; apply window_state_depth.
Qed.

(** C9: a call made inside a critical section never invokes the callback;
    a rendered warning outside any critical section invokes it exactly
    once, with the message text of the report. *)
Theorem callback_once_outside_critical_section (g : Globals) (env : Env)
    (expanded : string) (s : State) :
  (in_critical_section s <> 0 ->
   filter is_callback (output (php_warning g env expanded s)) = [])
  /\ (in_critical_section s = 0 ->
      rendered (output (php_warning g env expanded s)) <> 0%nat ->
      filter is_callback (output (php_warning g env expanded s))
      = [Invoke_callback (vsnprintf BUF_SIZE expanded)]
      /\ In (Message_line (vsnprintf BUF_SIZE expanded))
            (output (php_warning g env expanded s))).
Proof.
  assert (Hnotice : filter is_callback (resume_notice env s) = []).
  { destruct (resume_notice_cases env s) as [-> | ->]; reflexivity. }
  assert (Hnotice' : rendered (resume_notice env s) = 0%nat).
  { unfold rendered.
    destruct (resume_notice_cases env s) as [-> | ->]; reflexivity. }
  destruct ((php_warning_level g =? 0) || negb (php_disable_warnings g =? 0))
    eqn:Egate.
  { rewrite php_warning_disabled by exact Egate. simpl.
    split; [reflexivity|]. intros _ H. now elim H. }
  assert (Hen : enabled g).
  { apply orb_false_elim in Egate. destruct Egate as [Hl Hd].
    apply Z.eqb_neq in Hl. apply negb_false_iff, Z.eqb_eq in Hd. now split. }
  rewrite (php_warning_enabled g env expanded s Hen). cbv zeta.
  destruct (_ >=? warnings_time_limit).
  - unfold output, fst. split.
    + intros _. rewrite filter_app, Hnotice.
      destruct (_ =? warnings_time_limit); reflexivity.
    + intros _ H. exfalso. apply H. unfold rendered in *.
      rewrite filter_app, length_app, Hnotice'.
      destruct (_ =? warnings_time_limit); reflexivity.
  - unfold output, fst. rewrite filter_app, Hnotice, callbacks_report. simpl.
    split.
    + intros H. apply Z.eqb_neq in H. now rewrite H.
    + intros H _. rewrite H. simpl. split; [reflexivity|].
      apply in_or_app. right. unfold report. right. left. reflexivity.
Qed.

Lemma callback_once_outside_critical_section_witness :
  filter is_callback
    (output (php_warning (example_globals 1 0) example_spliced_env "w"
               (set_in_critical_section 1 initial_state))) = []
  /\ (filter is_callback
        (output (php_warning (example_globals 1 0) example_spliced_env "w"
                   initial_state))
      = [Invoke_callback (vsnprintf BUF_SIZE "w")]
      /\ In (Message_line (vsnprintf BUF_SIZE "w"))
            (output (php_warning (example_globals 1 0) example_spliced_env "w"
                       initial_state))).
Proof.
  pose proof (callback_once_outside_critical_section (example_globals 1 0)
                example_spliced_env "w"%string
                (set_in_critical_section 1 initial_state)) as [Hheld _].
  pose proof (callback_once_outside_critical_section (example_globals 1 0)
                example_spliced_env "w"%string initial_state) as [_ Hfree].
  split.
  - apply Hheld. simpl. lia.
  - apply Hfree.
    + reflexivity.
    + vm_compute. discriminate.
Defined.

(** * Termination of the process *)

Lemma php_warning_returns g env expanded s :
  die_on_fail g = 0 ->
  exists o s', php_warning g env expanded s = (o, Returned tt s').
Proof.
  intros Hdie.
  destruct ((php_warning_level g =? 0) || negb (php_disable_warnings g =? 0))
    eqn:Egate.
  - rewrite php_warning_disabled by exact Egate. eauto.
  - assert (Hen : enabled g).
    { apply orb_false_elim in Egate. destruct Egate as [Hl Hd].
      apply Z.eqb_neq in Hl. apply negb_false_iff, Z.eqb_eq in Hd. now split. }
    rewrite (php_warning_enabled g env expanded s Hen). cbv zeta.
    rewrite Hdie. simpl (0 =? 0).
    destruct (_ >=? warnings_time_limit); eauto.
Qed.

Lemma php_warnings_returns g calls s :
  die_on_fail g = 0 ->
  exists o s', php_warnings g calls s = (o, Returned tt s').
Proof.
  intros Hdie. unfold php_warnings. revert s.
  induction calls as [|[env expanded] t IH]; intros s; simpl.
  - unfold ret. eauto.
  - destruct (php_warning_returns g env expanded s Hdie) as (o1 & s1 & H1).
    destruct (IH s1) as (o2 & s2 & H2).
    rewrite (bind_returned _ _ _ _ _ _ _ _ H1), H2. unfold prepend. simpl. eauto.
Qed.

Lemma php_assert_exits g env msg file line s :
  exists o s', php_assert__ g env msg file line s = (o, Exited 1 s').
Proof.
  unfold php_assert__.
  destruct (php_warning g env (assertion_text msg file line) s)
    as [o1 [[] s1|c s1]] eqn:E.
  - rewrite (bind_returned _ _ _ _ _ _ _ _ E). unfold raise.
    rewrite !bind_emit. unfold prepend, _exit. simpl. eauto.
  - assert (c = 1).
    { destruct ((php_warning_level g =? 0) || negb (php_disable_warnings g =? 0))
        eqn:Egate.
      - rewrite php_warning_disabled in E by exact Egate. discriminate.
      - assert (Hen : enabled g).
        { apply orb_false_elim in Egate. destruct Egate as [Hl Hd].
          apply Z.eqb_neq in Hl. apply negb_false_iff, Z.eqb_eq in Hd.
          now split. }
        rewrite (php_warning_enabled g env _ s Hen) in E. cbv zeta in E.
        destruct (_ >=? warnings_time_limit); [discriminate|].
        destruct (die_on_fail g =? 0); [discriminate|].
        now inversion E. }
    subst c. unfold bind. rewrite E. eauto.
Qed.

(** C3: a fatal assertion always ends the process and never returns to its
    caller; with the fatal-on-warning toggle off, a warning returns
    normally, after any number of earlier warnings. *)
Theorem assert_exits_and_warning_returns (g : Globals) :
  (forall env msg file line s,
     exists o s', php_assert__ g env msg file line s = (o, Exited 1 s'))
  /\ (die_on_fail g = 0 ->
      forall prior env expanded s,
      exists o1 s1 o2 s2,
        php_warnings g prior s = (o1, Returned tt s1)
        /\ php_warning g env expanded s1 = (o2, Returned tt s2)).
Proof.
  split.
  - intros. apply php_assert_exits.
  - intros Hdie prior env expanded s.
    destruct (php_warnings_returns g prior s Hdie) as (o1 & s1 & H1).
    destruct (php_warning_returns g env expanded s1 Hdie) as (o2 & s2 & H2).
    exists o1, s1, o2, s2. split; assumption.
Qed.

Lemma assert_exits_and_warning_returns_witness :
  exists o1 s1 o2 s2,
    php_warnings (example_globals 2 0) (burst 1000 3) initial_state
    = (o1, Returned tt s1)
    /\ php_warning (example_globals 2 0) example_spliced_env "w" s1
       = (o2, Returned tt s2).
Proof.
  apply (assert_exits_and_warning_returns (example_globals 2 0)).
  reflexivity.
Defined.

(** C10: when the report of a fatal assertion is suppressed, be it by
    level 0, by disabled warnings or by the rate limit, the assertion
    still raises the fault signal and exits with code 1; nothing of a
    report is written. *)
Theorem suppressed_assert_still_exits (g : Globals) (env : Env)
    (msg file : string) (line : Z) (s : State) :
  php_warning_level g = 0 \/ php_disable_warnings g <> 0
  \/ (enabled g /\ ~ passes_rate_gate env s) ->
  exists notices s',
    php_assert__ g env msg file line s
    = (notices ++ [Raise SIGPHPASSERT; Exiting_in_php_assert], Exited 1 s')
    /\ filter is_report_event notices = [].
Proof.
  intros Hsup. unfold php_assert__.
  assert (Hw : exists notices s',
             php_warning g env (assertion_text msg file line) s
             = (notices, Returned tt s')
             /\ filter is_report_event notices = []).
  { destruct Hsup as [Hl | [Hd | [Hen Hgate]]].
    - exists [], s. split; [|reflexivity].
      apply php_warning_disabled. now rewrite Hl.
    - exists [], s. split; [|reflexivity].
      apply php_warning_disabled. apply Z.eqb_neq in Hd. rewrite Hd.
      apply orb_true_r.
    - rewrite (php_warning_skipped g env _ s Hen Hgate).
      eexists _, _. split; [reflexivity|].
      rewrite filter_app.
      destruct (resume_notice_cases env s) as [-> | ->];
        destruct (_ =? warnings_time_limit); reflexivity. }
  destruct Hw as (notices & s' & Hrun & Hnone).
  exists notices, s'. split; [|exact Hnone].
  rewrite (bind_returned _ _ _ _ _ _ _ _ Hrun). unfold raise.
  rewrite !bind_emit. unfold prepend, _exit. simpl. reflexivity.
Qed.

Lemma suppressed_assert_still_exits_witness :
  (exists notices s',
     php_assert__ (example_globals 0 0) example_spliced_env
       "x > 0" "main.php" 12 initial_state
     = (notices ++ [Raise SIGPHPASSERT; Exiting_in_php_assert], Exited 1 s')
     /\ filter is_report_event notices = [])
  /\ (exists notices s',
        php_assert__ (example_globals 2 0) example_spliced_env
          "x > 0" "main.php" 12 example_full_window
        = (notices ++ [Raise SIGPHPASSERT; Exiting_in_php_assert], Exited 1 s')
        /\ filter is_report_event notices = []).
Proof.
  split.
  - apply (suppressed_assert_still_exits (example_globals 0 0)
             example_spliced_env "x > 0"%string "main.php"%string 12
             initial_state).
    left. reflexivity.
  - apply (suppressed_assert_still_exits (example_globals 2 0)
             example_spliced_env "x > 0"%string "main.php"%string 12
             example_full_window).
    right. right. split.
    + split; [discriminate|reflexivity].
    + vm_compute. discriminate.
Defined.

(** * The rate window *)

Lemma for_each_app (A : Type) (f : A -> M unit) (l1 l2 : list A) s :
  for_each (l1 ++ l2) f s = bind (for_each l1 f) (fun _ => for_each l2 f) s.
Proof.
  revert s. induction l1 as [|x t IH]; intros s; simpl.
  - unfold bind, ret. simpl. destruct (for_each l2 f s). reflexivity.
  - rewrite bind_assoc.
    destruct (f x s) as [o [[] s1|c s1]] eqn:E.
    + rewrite !(bind_returned _ _ _ _ _ _ _ _ E), IH. reflexivity.
    + unfold bind at 1 2. rewrite E. reflexivity.
Qed.

Lemma inside_window_no_rollover env s :
  cur_time_of env < to_int (warnings_count_time s + warnings_time_period) ->
  window_state env s = s /\ resume_notice env s = [].
Proof.
  intros H. unfold window_state, resume_notice, rolls_over.
  destruct (Z.geb_spec (cur_time_of env)
              (to_int (warnings_count_time s + warnings_time_period))); [lia|].
  split; reflexivity.
Qed.

Lemma set_warnings_printed_twice a b s :
  set_warnings_printed a (set_warnings_printed b s) = set_warnings_printed a s.
Proof. reflexivity. Qed.

(** Below the limit every call of the window renders its report. *)
Lemma run_below_limit g calls : forall s,
  enabled g -> die_on_fail g = 0 ->
  Forall (inside_window (warnings_count_time s)) calls ->
  0 <= warnings_printed s ->
  warnings_printed s + Z.of_nat (List.length calls) < warnings_time_limit ->
  php_warnings g calls s =
  (reports g (in_critical_section s) calls,
   Returned tt
     (set_warnings_printed (warnings_printed s + Z.of_nat (List.length calls)) s)).
Proof.
  unfold php_warnings, reports.
  induction calls as [|[env expanded] t IH]; intros s Hen Hdie Hin H0 Hlt.
  - simpl. unfold ret. rewrite Z.add_0_r. destruct s; reflexivity.
  - inversion Hin as [|? ? Hc Ht]; subst. unfold inside_window in Hc.
    simpl fst in Hc.
    destruct (inside_window_no_rollover env s Hc) as [Hws Hrn].
    cbn [for_each flat_map fst snd].
    assert (Hstep : to_int (warnings_printed s + 1) = warnings_printed s + 1).
    { apply to_int_small. unfold in_int, int_min, int_max, warnings_time_limit in *.
      cbn [List.length] in Hlt. lia. }
    assert (Hgate : passes_rate_gate env s).
    { unfold passes_rate_gate. rewrite Hws, Hstep. cbn [List.length] in Hlt. lia. }
    pose proof (php_warning_report g env expanded s Hen Hgate) as Hrun.
    rewrite Hdie, Hrn, Hws, Hstep in Hrun. simpl (0 =? 0) in Hrun.
    cbv iota in Hrun.
    rewrite (bind_returned _ _ _ _ _ _ _ _ Hrun).
    rewrite IH; try assumption.
    + replace (Z.of_nat (List.length ((env, expanded) :: t)))
        with (1 + Z.of_nat (List.length t)) by (cbn [List.length]; lia).
      rewrite Z.add_assoc. reflexivity.
    + simpl. lia.
    + simpl. cbn [List.length] in Hlt. lia.
Qed.

(** From the limit on, every call of the window is counted as skipped; only
    the call that reaches the limit writes a line. *)
Lemma run_at_limit g calls : forall s,
  enabled g ->
  Forall (inside_window (warnings_count_time s)) calls ->
  warnings_time_limit - 1 <= warnings_printed s ->
  warnings_printed s + Z.of_nat (List.length calls) <= int_max ->
  0 <= skipped s ->
  skipped s + Z.of_nat (List.length calls) <= int_max ->
  php_warnings g calls s =
  (match calls with
   | c :: _ =>
       if warnings_printed s + 1 =? warnings_time_limit
       then [Warnings_limit_reached (cur_time_of (fst c))
               (to_int (warnings_count_time s + warnings_time_period))]
       else []
   | [] => []
   end,
   Returned tt
     (set_skipped (skipped s + Z.of_nat (List.length calls))
        (set_warnings_printed
           (warnings_printed s + Z.of_nat (List.length calls)) s))).
Proof.
  unfold php_warnings.
  induction calls as [|[env expanded] t IH]; intros s Hen Hin Hp Hpmax Hs Hsmax.
  - simpl. unfold ret. rewrite !Z.add_0_r. destruct s; reflexivity.
  - inversion Hin as [|? ? Hc Ht]; subst. unfold inside_window in Hc.
    simpl fst in Hc.
    destruct (inside_window_no_rollover env s Hc) as [Hws Hrn].
    cbn [for_each fst snd]. cbn [List.length] in Hpmax, Hsmax.
    assert (Hstep : to_int (warnings_printed s + 1) = warnings_printed s + 1).
    { apply to_int_small.
      unfold in_int, int_min, int_max, warnings_time_limit in *. lia. }
    assert (Hstep' : to_int (skipped s + 1) = skipped s + 1).
    { apply to_int_small.
      unfold in_int, int_min, int_max, warnings_time_limit in *. lia. }
    assert (Hgate : ~ passes_rate_gate env s).
    { unfold passes_rate_gate. rewrite Hws, Hstep. lia. }
    rewrite (bind_returned _ _ _ _ _ _ _ _
               (php_warning_skipped g env expanded s Hen Hgate)).
    rewrite Hrn, Hws, Hstep, Hstep'.
    rewrite IH; try assumption;
      [|simpl; unfold int_max, warnings_time_limit in *; lia ..].
    unfold prepend. cbn [fst snd app List.length warnings_printed
                         warnings_count_time skipped set_skipped
                         set_warnings_printed].
    assert (Hnext : (match t with
                     | [] => []
                     | c :: _ =>
                         if warnings_printed s + 1 + 1 =? warnings_time_limit
                         then [Warnings_limit_reached (cur_time_of (fst c))
                                 (to_int (warnings_count_time s
                                          + warnings_time_period))]
                         else []
                     end) = []).
    { destruct t; [reflexivity|].
      destruct (Z.eqb_spec (warnings_printed s + 1 + 1) warnings_time_limit);
        [lia|reflexivity]. }
    rewrite Hnext, app_nil_r.
    replace (Z.of_nat (S (List.length t)))
      with (1 + Z.of_nat (List.length t)) by lia.
    rewrite !Z.add_assoc. reflexivity.
Qed.

Lemma opens_window_state env s :
  opens_window s env -> 0 <= skipped s ->
  window_state env s =
  {| warnings_printed := 0; warnings_count_time := cur_time_of env;
     skipped := 0; in_critical_section := in_critical_section s |}.
Proof.
  intros Hopen Hsk. unfold window_state, rolls_over. unfold opens_window in Hopen.
  destruct (Z.geb_spec (cur_time_of env)
              (to_int (warnings_count_time s + warnings_time_period))); [|lia].
  destruct (Z.gtb_spec (skipped s) 0); [reflexivity|].
  f_equal. lia.
Qed.

(** A whole window: the first call opens it, the calls after it fall
    inside it.  The first [warnings_time_limit - 1] calls are rendered, the
    next one writes the limit line, and all calls from that one on are
    counted as skipped. *)
Lemma window_run g s first rest :
  enabled g -> die_on_fail g = 0 -> 0 <= skipped s ->
  opens_window s (fst first) ->
  Forall (inside_window (cur_time_of (fst first))) rest ->
  Z.of_nat (List.length (first :: rest)) <= int_max ->
  php_warnings g (first :: rest) s =
  (resume_notice (fst first) s
   ++ reports g (in_critical_section s)
        (firstn (Z.to_nat (warnings_time_limit - 1)) (first :: rest))
   ++ limit_notice (cur_time_of (fst first)) (first :: rest),
   Returned tt
     {| warnings_printed := Z.of_nat (List.length (first :: rest));
        warnings_count_time := cur_time_of (fst first);
        skipped := Z.max 0 (Z.of_nat (List.length (first :: rest))
                            - (warnings_time_limit - 1));
        in_critical_section := in_critical_section s |}).
Proof.
  intros Hen Hdie Hsk Hopen Hin Hmax.
  destruct first as [env0 x0]. simpl fst in *.
  unfold limit_notice.
  change (Z.to_nat (warnings_time_limit - 1)) with (S 998).
  rewrite firstn_cons.
  change (nth_error ((env0, x0) :: rest) (S 998)) with (nth_error rest 998).
  pose proof (opens_window_state env0 s Hopen Hsk) as Hws.
  assert (Hgate : passes_rate_gate env0 s).
  { unfold passes_rate_gate. rewrite Hws. vm_compute. reflexivity. }
  pose proof (php_warning_report g env0 x0 s Hen Hgate) as Hrun.
  rewrite Hdie, Hws in Hrun. simpl (0 =? 0) in Hrun. cbv iota in Hrun.
  change (to_int (warnings_printed
                    {| warnings_printed := 0;
                       warnings_count_time := cur_time_of env0;
                       skipped := 0;
                       in_critical_section := in_critical_section s |} + 1))
    with 1 in Hrun.
  unfold php_warnings. cbn [for_each fst snd].
  rewrite (bind_returned _ _ _ _ _ _ _ _ Hrun). clear Hrun.
  fold (php_warnings g rest).
  rewrite <- (firstn_skipn 998 rest) at 1.
  rewrite <- (firstn_skipn 998 rest) in Hin. apply Forall_app in Hin.
  destruct Hin as [Hin1 Hin2].
  unfold php_warnings at 1. rewrite for_each_app.
  fold (php_warnings g (firstn 998 rest)). fold (php_warnings g (skipn 998 rest)).
  set (s1 := set_warnings_printed 1 _).
  assert (Hlen1 : (List.length (firstn 998 rest) <= 998)%nat).
  { rewrite length_firstn. lia. }
  assert (Hp1 : warnings_printed s1 = 1) by reflexivity.
  rewrite (bind_returned _ _ _ _ _ _ _ _
             (run_below_limit g (firstn 998 rest) s1 Hen Hdie Hin1
                ltac:(rewrite Hp1; lia)
                ltac:(rewrite Hp1; unfold warnings_time_limit; lia))).
  cbn [reports flat_map]. fold (reports g (in_critical_section s) (firstn 998 rest)).
  change (in_critical_section s1) with (in_critical_section s).
  change (warnings_printed s1) with 1.
  set (s2 := set_warnings_printed _ s1).
  cbn [List.length] in Hmax.
  destruct (Nat.le_gt_cases (List.length rest) 998) as [Hshort|Hlong].
  - rewrite (skipn_all2 _ Hshort).
    replace (nth_error rest 998) with (@None (Env * string))
      by (symmetry; apply nth_error_None; exact Hshort).
    subst s2 s1. rewrite !(firstn_all2 _ Hshort).
    unfold php_warnings, for_each, ret, prepend. cbn [fst snd].
    rewrite !app_nil_r, <- app_assoc. f_equal.
    unfold set_warnings_printed.
    cbn [warnings_printed warnings_count_time skipped in_critical_section].
    cbn [List.length]. unfold warnings_time_limit. do 2 f_equal; lia.
  - assert (Hlenf : List.length (firstn 998 rest) = 998%nat).
    { rewrite length_firstn. lia. }
    rewrite (run_at_limit g (skipn 998 rest) s2 Hen Hin2);
      subst s2 s1; cbn [warnings_printed skipped set_warnings_printed
                        warnings_count_time];
      rewrite ?Hlenf, ?length_skipn;
      try (unfold warnings_time_limit, int_max in *; lia).
    rewrite <- hd_error_skipn.
    destruct (skipn 998 rest) as [|c tl] eqn:Eskip.
    { apply (f_equal (@List.length _)) in Eskip.
      rewrite length_skipn in Eskip. simpl in Eskip. lia. }
    cbn [hd_error]. change (1 + Z.of_nat 998 + 1 =? warnings_time_limit) with true.
    cbv iota. unfold prepend. cbn [fst snd].
    apply f_equal2.
    + rewrite <- !app_assoc. reflexivity.
    + unfold set_skipped, set_warnings_printed.
      cbn [warnings_printed warnings_count_time skipped in_critical_section
           List.length].
      unfold warnings_time_limit. do 2 f_equal; lia.
Qed.

Lemma rendered_app o1 o2 : rendered (o1 ++ o2) = (rendered o1 + rendered o2)%nat.
Proof. unfold rendered. now rewrite filter_app, length_app. Qed.

Lemma rendered_reports g depth calls :
  rendered (reports g depth calls) = List.length calls.
Proof.
  unfold reports. induction calls as [|c t IH]; [reflexivity|].
  cbn [flat_map List.length]. now rewrite rendered_app, rendered_report, IH.
Qed.

Lemma rendered_resume_notice env s : rendered (resume_notice env s) = 0%nat.
Proof. destruct (resume_notice_cases env s) as [-> | ->]; reflexivity. Qed.

(** C1, as stated, fails: of 1001 warnings in one window, with the limit
    of 1000, only 999 are rendered and 2 are counted as skipped; the
    warning that reaches the limit is itself skipped. *)
Lemma the_limit_th_warning_is_skipped :
  rendered (output (php_warnings (example_globals 1 0) (burst 1000 1001)
                      initial_state)) = 999%nat
  /\ 999%nat <> Z.to_nat warnings_time_limit
  /\ skipped (final_state (outcome (php_warnings (example_globals 1 0)
                                      (burst 1000 1001) initial_state))) = 2
  /\ 2 <> 1001 - warnings_time_limit.
Proof.
  repeat split; try (vm_compute; reflexivity); vm_compute; discriminate.
Qed.

(** C1, amended: with diagnostics enabled and the fatal-on-warning toggle
    off, of N warnings in one rate window with N greater than the limit,
    exactly [limit - 1] are rendered, the first ones, and exactly
    [N - (limit - 1)] are counted as skipped; the call that reaches the
    limit writes the one-line limit notice and the later ones write
    nothing. *)
Theorem window_renders_limit_minus_one (g : Globals) (s : State)
    (first : Env * string) (rest : list (Env * string)) :
  enabled g -> die_on_fail g = 0 -> 0 <= skipped s ->
  opens_window s (fst first) ->
  Forall (inside_window (cur_time_of (fst first))) rest ->
  warnings_time_limit < Z.of_nat (List.length (first :: rest)) ->
  Z.of_nat (List.length (first :: rest)) <= int_max ->
  exists c s',
    nth_error (first :: rest) (Z.to_nat (warnings_time_limit - 1)) = Some c
    /\ php_warnings g (first :: rest) s =
       (resume_notice (fst first) s
        ++ reports g (in_critical_section s)
             (firstn (Z.to_nat (warnings_time_limit - 1)) (first :: rest))
        ++ [Warnings_limit_reached (cur_time_of (fst c))
              (to_int (cur_time_of (fst first) + warnings_time_period))],
        Returned tt s')
    /\ Z.of_nat (rendered (output (php_warnings g (first :: rest) s)))
       = warnings_time_limit - 1
    /\ skipped s'
       = Z.of_nat (List.length (first :: rest)) - (warnings_time_limit - 1).
Proof.
  intros Hen Hdie Hsk Hopen Hin Hmany Hmax.
  pose proof (window_run g s first rest Hen Hdie Hsk Hopen Hin Hmax) as Hrun.
  unfold limit_notice in Hrun.
  destruct (nth_error (first :: rest) (Z.to_nat (warnings_time_limit - 1)))
    as [c|] eqn:Ec.
  2:{ apply nth_error_None in Ec. unfold warnings_time_limit in *. lia. }
  eexists c, _. split; [reflexivity|]. split; [exact Hrun|]. split.
  - rewrite Hrun. unfold output. cbn [fst].
    rewrite !rendered_app, rendered_resume_notice, rendered_reports.
    rewrite length_firstn. unfold warnings_time_limit in *.
    change (rendered [Warnings_limit_reached (cur_time_of (fst c))
                        (to_int (cur_time_of (fst first) + warnings_time_period))])
      with 0%nat.
    lia.
  - cbn [skipped]. unfold warnings_time_limit in *. lia.
Qed.

Lemma window_renders_limit_minus_one_witness :
  exists c s',
    nth_error (burst 1000 1001) (Z.to_nat (warnings_time_limit - 1)) = Some c
    /\ php_warnings (example_globals 1 0) (burst 1000 1001) initial_state =
       (resume_notice (example_env 1000 [] []) initial_state
        ++ reports (example_globals 1 0) 0
             (firstn (Z.to_nat (warnings_time_limit - 1)) (burst 1000 1001))
        ++ [Warnings_limit_reached (cur_time_of (fst c))
              (to_int (cur_time_of (example_env 1000 [] [])
                       + warnings_time_period))],
        Returned tt s')
    /\ Z.of_nat (rendered (output (php_warnings (example_globals 1 0)
                                     (burst 1000 1001) initial_state)))
       = warnings_time_limit - 1
    /\ skipped s' = Z.of_nat (List.length (burst 1000 1001))
                    - (warnings_time_limit - 1).
Proof.
  apply (window_renders_limit_minus_one (example_globals 1 0) initial_state
           (example_env 1000 [] [], "w"%string) (burst 1000 1000)).
  - split; [discriminate|reflexivity].
  - reflexivity.
  - simpl. lia.
  - vm_compute. discriminate.
  - apply Forall_forall. intros c Hc. apply repeat_spec in Hc. subst c.
    vm_compute. reflexivity.
  - vm_compute. reflexivity.
  - vm_compute. discriminate.
Defined.

(** C5, as stated, fails: after a window of 1001 warnings with the limit
    of 1000, the first warning of the next window is preceded by a notice
    that reports 2 skipped warnings, not 1001 - 1000 = 1. *)
Lemma resuming_notice_counts_the_limit_th :
  hd_error
    (output (php_warning (example_globals 1 0) (example_env 1300 [] []) "w"
               (final_state (outcome (php_warnings (example_globals 1 0)
                                        (burst 1000 1001) initial_state)))))
  = Some (Resuming_writing_warnings 1300 2)
  /\ 2 <> 1001 - warnings_time_limit.
Proof.
  split; [vm_compute; reflexivity|vm_compute; discriminate].
Qed.

(** C5, amended: after a window of N warnings in which S > 0 were
    skipped, the first warning of the next window is rendered and its
    report is preceded by the one-line resuming notice, which reports
    exactly S = N - (limit - 1) skipped warnings; the skipped counter is
    then zero. *)
Theorem resuming_notice_reports_skipped (g : Globals) (s : State)
    (first : Env * string) (rest : list (Env * string))
    (next : Env) (expanded : string) :
  enabled g -> die_on_fail g = 0 -> 0 <= skipped s ->
  opens_window s (fst first) ->
  Forall (inside_window (cur_time_of (fst first))) rest ->
  warnings_time_limit <= Z.of_nat (List.length (first :: rest)) ->
  Z.of_nat (List.length (first :: rest)) <= int_max ->
  to_int (cur_time_of (fst first) + warnings_time_period) <= cur_time_of next ->
  exists o1 s1 tail s2,
    php_warnings g (first :: rest) s = (o1, Returned tt s1)
    /\ 0 < skipped s1
    /\ skipped s1
       = Z.of_nat (List.length (first :: rest)) - (warnings_time_limit - 1)
    /\ php_warning g next expanded s1 =
       (Resuming_writing_warnings (to_int (time_at_resume next)) (skipped s1)
        :: Warning_prefix (engine_tag g) (cur_time_of next) (engine_pid g)
        :: Message_line (vsnprintf BUF_SIZE expanded)
        :: tail,
        Returned tt s2)
    /\ skipped s2 = 0.
Proof.
  intros Hen Hdie Hsk Hopen Hin Hmany Hmax Hnext.
  pose proof (window_run g s first rest Hen Hdie Hsk Hopen Hin Hmax) as Hrun.
  set (s1 := {| warnings_printed := Z.of_nat (List.length (first :: rest));
                warnings_count_time := cur_time_of (fst first);
                skipped := Z.max 0 (Z.of_nat (List.length (first :: rest))
                                    - (warnings_time_limit - 1));
                in_critical_section := in_critical_section s |}) in *.
  assert (Hs1 : skipped s1
                = Z.of_nat (List.length (first :: rest))
                  - (warnings_time_limit - 1)).
  { subst s1. cbn [skipped]. unfold warnings_time_limit in *. lia. }
  assert (Hpos : 0 < skipped s1).
  { rewrite Hs1. unfold warnings_time_limit in *. lia. }
  assert (Hopen' : opens_window s1 next) by exact Hnext.
  pose proof (opens_window_state next s1 Hopen' ltac:(lia)) as Hws.
  assert (Hgate : passes_rate_gate next s1).
  { unfold passes_rate_gate. rewrite Hws. vm_compute. reflexivity. }
  pose proof (php_warning_report g next expanded s1 Hen Hgate) as Hnext_run.
  rewrite Hdie, Hws in Hnext_run. simpl (0 =? 0) in Hnext_run.
  cbv iota in Hnext_run.
  assert (Hnotice : resume_notice next s1 =
                    [Resuming_writing_warnings (to_int (time_at_resume next))
                       (skipped s1)]).
  { unfold resume_notice, rolls_over. unfold opens_window in Hopen'.
    destruct (Z.geb_spec (cur_time_of next)
                (to_int (warnings_count_time s1 + warnings_time_period)));
      [|lia].
    destruct (Z.gtb_spec (skipped s1) 0); [reflexivity|lia]. }
  rewrite Hnotice in Hnext_run. unfold report in Hnext_run.
  eexists _, s1, _, _. split; [exact Hrun|].
  split; [exact Hpos|]. split; [exact Hs1|].
  split; [exact Hnext_run|]. reflexivity.
Qed.

Lemma resuming_notice_reports_skipped_witness :
  exists o1 s1 tail s2,
    php_warnings (example_globals 1 0) (burst 1000 1001) initial_state
    = (o1, Returned tt s1)
    /\ 0 < skipped s1
    /\ skipped s1 = Z.of_nat (List.length (burst 1000 1001))
                    - (warnings_time_limit - 1)
    /\ php_warning (example_globals 1 0) (example_env 1300 [] []) "w" s1 =
       (Resuming_writing_warnings
          (to_int (time_at_resume (example_env 1300 [] []))) (skipped s1)
        :: Warning_prefix "[" (cur_time_of (example_env 1300 [] [])) "] "
        :: Message_line (vsnprintf BUF_SIZE "w")
        :: tail,
        Returned tt s2)
    /\ skipped s2 = 0.
Proof.
  apply (resuming_notice_reports_skipped (example_globals 1 0) initial_state
           (example_env 1000 [] [], "w"%string) (burst 1000 1000)
           (example_env 1300 [] []) "w"%string).
  - split; [discriminate|reflexivity].
  - reflexivity.
  - simpl. lia.
  - vm_compute. discriminate.
  - apply Forall_forall. intros c Hc. apply repeat_spec in Hc. subst c.
    vm_compute. reflexivity.
  - vm_compute. discriminate.
  - vm_compute. discriminate.
  - vm_compute. discriminate.
Defined.

(** * Further properties of php_warning and php_assert__ *)

Lemma gate_open_enabled g :
  (php_warning_level g =? 0) || negb (php_disable_warnings g =? 0) = false ->
  enabled g.
Proof.
  intros Egate. apply orb_false_elim in Egate. destruct Egate as [Hl Hd].
  apply Z.eqb_neq in Hl. apply negb_false_iff, Z.eqb_eq in Hd. now split.
Qed.

Lemma gate_closed_cases g :
  php_warning_level g = 0 \/ php_disable_warnings g <> 0 ->
  (php_warning_level g =? 0) || negb (php_disable_warnings g =? 0) = true.
Proof.
  intros [Hl | Hd].
  - now rewrite Hl.
  - apply Z.eqb_neq in Hd. rewrite Hd. apply orb_true_r.
Qed.

(** X1: with level 0 or with warnings disabled, any number of calls
    writes nothing and leaves the counters, the window and the guard depth
    as they were. *)
Theorem disabled_warnings_leave_no_trace (g : Globals)
    (calls : list (Env * string)) (s : State) :
  php_warning_level g = 0 \/ php_disable_warnings g <> 0 ->
  php_warnings g calls s = ([], Returned tt s).
Proof.
  intros Hoff. apply gate_closed_cases in Hoff. unfold php_warnings.
  induction calls as [|[env expanded] t IH]; [reflexivity|].
  cbn [for_each fst snd].
  rewrite (bind_returned _ _ _ _ _ _ _ _
             (php_warning_disabled g env expanded s Hoff)).
  rewrite IH. reflexivity.
Qed.

Lemma disabled_warnings_leave_no_trace_witness :
  php_warnings (example_globals 0 1) (burst 1000 5) example_full_window
  = ([], Returned tt example_full_window).
Proof.
  apply (disabled_warnings_leave_no_trace (example_globals 0 1)
           (burst 1000 5) example_full_window).
  left. reflexivity.
Defined.

(** X2: the window is reset exactly when the period has elapsed since its
    start: a call before [start + period] keeps the window start and adds
    one to the count; a call at or after it makes its own time the new
    start and is counted as the first of the new window. *)
Theorem window_resets_at_period (g : Globals) (env : Env) (expanded : string)
    (s : State) :
  enabled g ->
  in_int (warnings_count_time s + warnings_time_period) ->
  (cur_time_of env < warnings_count_time s + warnings_time_period ->
   warnings_count_time (final_state (outcome (php_warning g env expanded s)))
   = warnings_count_time s
   /\ warnings_printed (final_state (outcome (php_warning g env expanded s)))
      = to_int (warnings_printed s + 1))
  /\ (warnings_count_time s + warnings_time_period <= cur_time_of env ->
      warnings_count_time (final_state (outcome (php_warning g env expanded s)))
      = cur_time_of env
      /\ warnings_printed (final_state (outcome (php_warning g env expanded s)))
         = 1).
Proof.
  intros Hen Hrange.
  rewrite (php_warning_enabled g env expanded s Hen). cbv zeta.
  assert (Hfinal : forall (r : list event * result unit) n,
             (r = (fst r, Returned tt (set_skipped (to_int (skipped (window_state env s) + 1))
                                         (set_warnings_printed n (window_state env s))))
              \/ r = (fst r, Returned tt (set_warnings_printed n (window_state env s)))
              \/ r = (fst r, Exited 1 (set_warnings_printed n (window_state env s)))) ->
             warnings_count_time (final_state (outcome r))
             = warnings_count_time (window_state env s)
             /\ warnings_printed (final_state (outcome r)) = n).
  { intros r n [-> | [-> | ->]]; split; reflexivity. }
  match goal with
  | |- context [final_state (outcome ?r)] =>
      destruct (Hfinal r (to_int (warnings_printed (window_state env s) + 1)))
        as [Hct Hwp]
  end.
  { destruct (_ >=? warnings_time_limit); [left; reflexivity|].
    destruct (die_on_fail g =? 0); [right; left|right; right]; reflexivity. }
  rewrite Hct, Hwp. unfold window_state, rolls_over.
  rewrite (to_int_small _ Hrange).
  split; intros Ht.
  - destruct (Z.geb_spec (cur_time_of env)
                (warnings_count_time s + warnings_time_period)); [lia|].
    split; reflexivity.
  - destruct (Z.geb_spec (cur_time_of env)
                (warnings_count_time s + warnings_time_period)); [|lia].
    split; reflexivity.
Qed.

Lemma window_resets_at_period_witness :
  (warnings_count_time
     (final_state (outcome (php_warning (example_globals 1 0)
                              (example_env 1299 [] []) "w" example_full_window)))
   = warnings_count_time example_full_window
   /\ warnings_printed
        (final_state (outcome (php_warning (example_globals 1 0)
                                 (example_env 1299 [] []) "w"
                                 example_full_window)))
      = to_int (warnings_printed example_full_window + 1))
  /\ (warnings_count_time
        (final_state (outcome (php_warning (example_globals 1 0)
                                 (example_env 1300 [] []) "w"
                                 example_full_window)))
      = cur_time_of (example_env 1300 [] [])
      /\ warnings_printed
           (final_state (outcome (php_warning (example_globals 1 0)
                                    (example_env 1300 [] []) "w"
                                    example_full_window)))
         = 1).
Proof.
  pose proof (window_resets_at_period (example_globals 1 0)
                (example_env 1299 [] []) "w"%string example_full_window)
    as Hearly.
  pose proof (window_resets_at_period (example_globals 1 0)
                (example_env 1300 [] []) "w"%string example_full_window)
    as Hlate.
  split.
  - apply Hearly.
    + split; [discriminate|reflexivity].
    + vm_compute. split; discriminate.
    + vm_compute. reflexivity.
  - apply Hlate.
    + split; [discriminate|reflexivity].
    + vm_compute. split; discriminate.
    + vm_compute. discriminate.
Defined.

Lemma opens_window_rolls_over env s :
  opens_window s env -> rolls_over env s = true.
Proof.
  unfold opens_window, rolls_over. intros H.
  destruct (Z.geb_spec (cur_time_of env)
              (to_int (warnings_count_time s + warnings_time_period)));
    [reflexivity|lia].
Qed.

(** X3: once the period has elapsed, the next warning is always rendered,
    however many warnings the old window counted; it is the first of the
    new window, and a nonnegative skipped counter is back at zero. *)
Theorem new_window_renders_first_warning (g : Globals) (env : Env)
    (expanded : string) (s : State) :
  enabled g -> opens_window s env ->
  rendered (output (php_warning g env expanded s)) = 1%nat
  /\ warnings_printed (final_state (outcome (php_warning g env expanded s))) = 1
  /\ (0 <= skipped s ->
      skipped (final_state (outcome (php_warning g env expanded s))) = 0).
Proof.
  intros Hen Hopen. pose proof (opens_window_rolls_over env s Hopen) as Hroll.
  assert (Hwp : warnings_printed (window_state env s) = 0).
  { unfold window_state. now rewrite Hroll. }
  assert (Hgate : passes_rate_gate env s).
  { unfold passes_rate_gate. rewrite Hwp. vm_compute. reflexivity. }
  rewrite (php_warning_report g env expanded s Hen Hgate). rewrite Hwp.
  change (to_int (0 + 1)) with 1.
  split; [|split].
  - unfold output. cbn [fst].
    now rewrite rendered_app, rendered_resume_notice, rendered_report.
  - destruct (die_on_fail g =? 0); reflexivity.
  - intros Hsk.
    assert (Hs : skipped (window_state env s) = 0).
    { unfold window_state. rewrite Hroll. cbn [skipped].
      destruct (Z.gtb_spec (skipped s) 0); lia. }
    destruct (die_on_fail g =? 0); exact Hs.
Qed.

Lemma new_window_renders_first_warning_witness :
  rendered (output (php_warning (example_globals 1 0) (example_env 1300 [] [])
                      "w" example_full_window)) = 1%nat
  /\ warnings_printed
       (final_state (outcome (php_warning (example_globals 1 0)
                                (example_env 1300 [] []) "w"
                                example_full_window))) = 1
  /\ skipped
       (final_state (outcome (php_warning (example_globals 1 0)
                                (example_env 1300 [] []) "w"
                                example_full_window))) = 0.
Proof.
  destruct (new_window_renders_first_warning (example_globals 1 0)
              (example_env 1300 [] []) "w"%string example_full_window)
    as (Hr & Hp & Hs).
  - split; [discriminate|reflexivity].
  - vm_compute. discriminate.
  - split; [exact Hr|]. split; [exact Hp|]. apply Hs. simpl. lia.
Defined.

(** X4: a window with fewer warnings than the limit renders every one of
    them, skips none and writes no limit notice. *)
Theorem window_below_limit_renders_all (g : Globals) (s : State)
    (first : Env * string) (rest : list (Env * string)) :
  enabled g -> die_on_fail g = 0 -> 0 <= skipped s ->
  opens_window s (fst first) ->
  Forall (inside_window (cur_time_of (fst first))) rest ->
  Z.of_nat (List.length (first :: rest)) < warnings_time_limit ->
  exists s',
    php_warnings g (first :: rest) s =
    (resume_notice (fst first) s
     ++ reports g (in_critical_section s) (first :: rest),
     Returned tt s')
    /\ rendered (output (php_warnings g (first :: rest) s))
       = List.length (first :: rest)
    /\ warnings_printed s' = Z.of_nat (List.length (first :: rest))
    /\ skipped s' = 0.
Proof.
  intros Hen Hdie Hsk Hopen Hin Hfew.
  assert (Hmax : Z.of_nat (List.length (first :: rest)) <= int_max).
  { unfold int_max, warnings_time_limit in *. lia. }
  pose proof (window_run g s first rest Hen Hdie Hsk Hopen Hin Hmax) as Hrun.
  assert (Hshort : (List.length (first :: rest)
                    <= Z.to_nat (warnings_time_limit - 1))%nat).
  { unfold warnings_time_limit in *. lia. }
  unfold limit_notice in Hrun.
  rewrite (firstn_all2 _ Hshort) in Hrun.
  rewrite (proj2 (nth_error_None _ _) Hshort), app_nil_r in Hrun.
  eexists. split; [exact Hrun|]. rewrite Hrun. unfold output. cbn [fst].
  split; [|split].
  - now rewrite rendered_app, rendered_resume_notice, rendered_reports.
  - reflexivity.
  - cbn [skipped]. unfold warnings_time_limit in *. lia.
Qed.

Lemma window_below_limit_renders_all_witness :
  exists s',
    php_warnings (example_globals 1 0) (burst 1000 3) initial_state =
    (resume_notice (example_env 1000 [] []) initial_state
     ++ reports (example_globals 1 0) 0 (burst 1000 3),
     Returned tt s')
    /\ rendered (output (php_warnings (example_globals 1 0) (burst 1000 3)
                           initial_state))
       = List.length (burst 1000 3)
    /\ warnings_printed s' = Z.of_nat (List.length (burst 1000 3))
    /\ skipped s' = 0.
Proof.
  apply (window_below_limit_renders_all (example_globals 1 0) initial_state
           (example_env 1000 [] [], "w"%string) (burst 1000 2)).
  - split; [discriminate|reflexivity].
  - reflexivity.
  - simpl. lia.
  - vm_compute. discriminate.
  - apply Forall_forall. intros c Hc. apply repeat_spec in Hc. subst c.
    vm_compute. reflexivity.
  - vm_compute. reflexivity.
Defined.

Lemma limit_notices_report g env expanded depth :
  filter is_limit_notice (report g env expanded depth) = [].
Proof.
  unfold report. simpl. rewrite !filter_app.
  rewrite (filter_backtrace is_limit_notice g env) by
    (try reflexivity; intros e; destruct e; simpl; congruence).
  destruct (depth =? 0), (die_on_fail g =? 0); reflexivity.
Qed.

Lemma limit_notices_reports g depth calls :
  filter is_limit_notice (reports g depth calls) = [].
Proof.
  unfold reports. induction calls as [|c t IH]; [reflexivity|].
  cbn [flat_map]. now rewrite filter_app, limit_notices_report, IH.
Qed.

(** X5: in a window that reaches the limit, the limit notice is written
    exactly once, however many warnings follow. *)
Theorem limit_notice_once_per_window (g : Globals) (s : State)
    (first : Env * string) (rest : list (Env * string)) :
  enabled g -> die_on_fail g = 0 -> 0 <= skipped s ->
  opens_window s (fst first) ->
  Forall (inside_window (cur_time_of (fst first))) rest ->
  warnings_time_limit <= Z.of_nat (List.length (first :: rest)) ->
  Z.of_nat (List.length (first :: rest)) <= int_max ->
  List.length (filter is_limit_notice
                 (output (php_warnings g (first :: rest) s))) = 1%nat.
Proof.
  intros Hen Hdie Hsk Hopen Hin Hmany Hmax.
  rewrite (window_run g s first rest Hen Hdie Hsk Hopen Hin Hmax).
  unfold output. cbn [fst]. rewrite !filter_app, limit_notices_reports.
  assert (Hnotice : filter is_limit_notice (resume_notice (fst first) s) = []).
  { destruct (resume_notice_cases (fst first) s) as [-> | ->]; reflexivity. }
  rewrite Hnotice. unfold limit_notice.
  destruct (nth_error (first :: rest) (Z.to_nat (warnings_time_limit - 1)))
    eqn:Ec; [reflexivity|].
  apply nth_error_None in Ec. unfold warnings_time_limit in *. lia.
Qed.

Lemma limit_notice_once_per_window_witness :
  List.length (filter is_limit_notice
                 (output (php_warnings (example_globals 1 0) (burst 1000 1001)
                            initial_state))) = 1%nat.
Proof.
  apply (limit_notice_once_per_window (example_globals 1 0) initial_state
           (example_env 1000 [] [], "w"%string) (burst 1000 1000)).
  - split; [discriminate|reflexivity].
  - reflexivity.
  - simpl. lia.
  - vm_compute. discriminate.
  - apply Forall_forall. intros c Hc. apply repeat_spec in Hc. subst c.
    vm_compute. reflexivity.
  - vm_compute. discriminate.
  - vm_compute. discriminate.
Defined.

Lemma raises_report g env expanded depth :
  filter is_raise (report g env expanded depth) =
  if die_on_fail g =? 0 then [] else [Raise SIGPHPASSERT].
Proof.
  unfold report. simpl. rewrite !filter_app.
  rewrite (filter_backtrace is_raise g env) by
    (try reflexivity; intros e; destruct e; simpl; congruence).
  destruct (depth =? 0), (die_on_fail g =? 0); reflexivity.
Qed.

Lemma raises_resume_notice env s : filter is_raise (resume_notice env s) = [].
Proof. destruct (resume_notice_cases env s) as [-> | ->]; reflexivity. Qed.

(** One call of [php_warning]: either it returns without raising, or it
    exits with code 1 after raising once. *)
Lemma php_warning_raise_cases g env expanded s :
  (exists o s', php_warning g env expanded s = (o, Returned tt s')
                /\ filter is_raise o = [])
  \/ (exists o s', php_warning g env expanded s = (o, Exited 1 s')
                   /\ List.length (filter is_raise o) = 1%nat).
Proof.
  destruct ((php_warning_level g =? 0) || negb (php_disable_warnings g =? 0))
    eqn:Egate.
  { left. rewrite php_warning_disabled by exact Egate. eauto. }
  rewrite (php_warning_enabled g env expanded s (gate_open_enabled g Egate)).
  cbv zeta. destruct (_ >=? warnings_time_limit).
  - left. eexists _, _. split; [reflexivity|].
    rewrite filter_app, raises_resume_notice.
    destruct (_ =? warnings_time_limit); reflexivity.
  - destruct (die_on_fail g =? 0) eqn:Edie.
    + left. eexists _, _. split; [reflexivity|].
      now rewrite filter_app, raises_resume_notice, raises_report, Edie.
    + right. eexists _, _. split; [reflexivity|].
      now rewrite filter_app, raises_resume_notice, raises_report, Edie.
Qed.

(** X6: a fatal assertion raises SIGPHPASSERT exactly once on every path:
    when the fatal-on-warning toggle makes [php_warning] exit, the raise
    and the exit of [php_assert__] itself are not reached. *)
Theorem assert_raises_signal_once (g : Globals) (env : Env)
    (msg file : string) (line : Z) (s : State) :
  List.length (filter is_raise (output (php_assert__ g env msg file line s)))
  = 1%nat.
Proof.
  unfold php_assert__.
  destruct (php_warning_raise_cases g env (assertion_text msg file line) s)
    as [(o & s' & Hrun & Hnone) | (o & s' & Hrun & Hone)].
  - rewrite (bind_returned _ _ _ _ _ _ _ _ Hrun). unfold raise.
    rewrite !bind_emit. unfold prepend, _exit, output. cbn [fst app].
    now rewrite filter_app, Hnone.
  - unfold bind at 1. rewrite Hrun. exact Hone.
Qed.

(** X7: the boundary index never exceeds the number of frames, and it
    equals that number exactly when no frame lies in the scheduler
    region. *)
Theorem classify_length_iff (g : Globals) (frames : list Z) :
  (classify g frames <= List.length frames)%nat
  /\ (classify g frames = List.length frames
      <-> Forall (fun a => is_address_inside_run_scheduler g a = false) frames).
Proof.
  split; [apply find_if_le|]. split.
  - apply find_if_is_length.
  - apply find_if_none.
Qed.

(** X8: when the stop symbol lies below the start symbol the region is
    empty: no address is inside and no capture has a boundary. *)
Theorem empty_region_has_no_boundary (g : Globals) (frames : list Z) :
  __stop_run_scheduler_section g < __start_run_scheduler_section g ->
  (forall a, is_address_inside_run_scheduler g a = false)
  /\ classify g frames = List.length frames.
Proof.
  intros Hempty.
  assert (Hout : forall a, is_address_inside_run_scheduler g a = false).
  { intros a. unfold is_address_inside_run_scheduler.
    destruct (Z.leb_spec (__start_run_scheduler_section g) a); [|reflexivity].
    destruct (Z.leb_spec a (__stop_run_scheduler_section g)); [lia|reflexivity]. }
  split; [exact Hout|].
  apply find_if_none. apply Forall_forall. intros a _. apply Hout.
Qed.

Lemma empty_region_has_no_boundary_witness :
  (forall a, is_address_inside_run_scheduler example_empty_region a = false)
  /\ classify example_empty_region example_frames = List.length example_frames.
Proof.
  apply (empty_region_has_no_boundary example_empty_region example_frames).
  simpl. lia.
Defined.

(** X9: the fatal-on-warning toggle acts on rendered warnings only: a
    warning that is disabled or rate-limited returns normally, without
    raising the signal, even when the toggle is set. *)
Theorem suppressed_warning_is_not_fatal (g : Globals) (env : Env)
    (expanded : string) (s : State) :
  php_warning_level g = 0 \/ php_disable_warnings g <> 0
  \/ (enabled g /\ ~ passes_rate_gate env s) ->
  exists o s',
    php_warning g env expanded s = (o, Returned tt s')
    /\ filter is_raise o = []
    /\ rendered o = 0%nat.
Proof.
  intros [Hl | [Hd | [Hen Hgate]]].
  - exists [], s. repeat split.
    apply php_warning_disabled, gate_closed_cases. now left.
  - exists [], s. repeat split.
    apply php_warning_disabled, gate_closed_cases. now right.
  - rewrite (php_warning_skipped g env expanded s Hen Hgate).
    eexists _, _. split; [reflexivity|]. split.
    + rewrite filter_app, raises_resume_notice.
      destruct (_ =? warnings_time_limit); reflexivity.
    + rewrite rendered_app, rendered_resume_notice.
      destruct (_ =? warnings_time_limit); reflexivity.
Qed.

Lemma suppressed_warning_is_not_fatal_witness :
  exists o s',
    php_warning (example_globals 2 1) example_spliced_env "w"
      example_full_window = (o, Returned tt s')
    /\ filter is_raise o = []
    /\ rendered o = 0%nat.
Proof.
  apply (suppressed_warning_is_not_fatal (example_globals 2 1)
           example_spliced_env "w"%string example_full_window).
  right. right. split.
  - split; [discriminate|reflexivity].
  - vm_compute. discriminate.
Defined.

(** X10: a rendered warning with the fatal-on-warning toggle set, outside
    any critical section, invokes the callback first, then raises the
    signal, writes the exit line and exits with code 1, the guard being
    released. *)
Theorem fatal_warning_invokes_callback_before_raise (g : Globals) (env : Env)
    (expanded : string) (s : State) :
  enabled g -> passes_rate_gate env s -> die_on_fail g <> 0 ->
  in_critical_section s = 0 ->
  exists before s',
    php_warning g env expanded s =
    (before ++ [Invoke_callback (vsnprintf BUF_SIZE expanded);
                Raise SIGPHPASSERT; Exiting_in_php_warning],
     Exited 1 s')
    /\ filter is_raise before = []
    /\ filter is_callback before = []
    /\ in_critical_section s' = 0.
Proof.
  intros Hen Hgate Hdie Hdepth.
  rewrite (php_warning_report g env expanded s Hen Hgate).
  apply Z.eqb_neq in Hdie. rewrite Hdie, Hdepth. unfold report.
  simpl (0 =? 0). rewrite Hdie. cbv iota.
  exists (resume_notice env s
          ++ Warning_prefix (engine_tag g) (cur_time_of env) (engine_pid g)
          :: Message_line (vsnprintf BUF_SIZE expanded) :: backtrace g env).
  eexists. split; [|split; [|split]].
  - f_equal. rewrite <- !app_assoc. simpl. reflexivity.
  - rewrite filter_app, raises_resume_notice. simpl.
    apply filter_backtrace; try reflexivity.
    intros e; destruct e; simpl; congruence.
  - rewrite filter_app. simpl.
    rewrite (filter_backtrace is_callback g env is_callback_frame)
      by reflexivity.
    destruct (resume_notice_cases env s) as [-> | ->]; reflexivity.
  - cbn [in_critical_section set_warnings_printed].
    rewrite window_state_depth. exact Hdepth.
Qed.

Lemma fatal_warning_invokes_callback_before_raise_witness :
  exists before s',
    php_warning (example_globals 1 1) example_spliced_env "w" initial_state =
    (before ++ [Invoke_callback (vsnprintf BUF_SIZE "w");
                Raise SIGPHPASSERT; Exiting_in_php_warning],
     Exited 1 s')
    /\ filter is_raise before = []
    /\ filter is_callback before = []
    /\ in_critical_section s' = 0.
Proof.
  apply (fatal_warning_invokes_callback_before_raise (example_globals 1 1)
           example_spliced_env "w"%string initial_state).
  - split; [discriminate|reflexivity].
  - vm_compute. reflexivity.
  - simpl. lia.
  - reflexivity.
Defined.

(** * Further properties of the backtrace *)

(** X11: at level 1, when the task has no cooperative frames, the
    backtrace is the same with and without a scheduler boundary: one
    address line per printed frame, in capture order. *)
Theorem level1_without_cooperative_frames (g : Globals) (env : Env)
    (expanded : string) (s : State) :
  php_warning_level g = 1 -> php_disable_warnings g = 0 ->
  passes_rate_gate env s -> resumable_stack env = [] ->
  output (php_warning g env expanded s) =
  resume_notice env s
  ++ [Warning_prefix (engine_tag g) (cur_time_of env) (engine_pid g);
      Message_line (vsnprintf BUF_SIZE expanded);
      Stack_Backtrace_header]
  ++ map Pointer_line
       (firstn (List.length (captured env) - 2) (captured env))
  ++ [Stack_Backtrace_footer]
  ++ (if in_critical_section s =? 0
      then [Invoke_callback (vsnprintf BUF_SIZE expanded)] else [])
  ++ (if die_on_fail g =? 0 then []
      else [Raise SIGPHPASSERT; Exiting_in_php_warning]).
Proof.
  intros Hlevel Hdis Hgate Hcoop.
  assert (Hen : enabled g) by (split; [rewrite Hlevel; discriminate|exact Hdis]).
  rewrite (php_warning_report g env expanded s Hen Hgate).
  unfold output, report, backtrace, spliced, printed_frames. cbn [fst].
  rewrite Hlevel. simpl (1 =? 1). simpl (1 >=? 1). cbv iota.
  set (F := firstn (List.length (captured env) - 2) (captured env)).
  assert (Hsame : (if (classify g F =? List.length F)%nat
                   then rendering g env F 0
                   else rendering g env (firstn (classify g F) F) 0
                        ++ rendering g (at_call env 1) (cooperative env)
                             (Z.of_nat (classify g F))
                        ++ rendering g (at_call env 2) (skipn (classify g F) F)
                             (Z.of_nat (classify g F)
                              + Z.of_nat (List.length (cooperative env))))
                  = map Pointer_line F).
  { destruct (classify g F =? List.length F)%nat.
    - now apply rendering_level1.
    - rewrite !rendering_level1 by exact Hlevel.
      unfold cooperative, get_resumable_stack. rewrite Hcoop, firstn_nil.
      simpl. rewrite <- map_app, firstn_skipn. reflexivity. }
  rewrite Hsame. simpl. rewrite <- !app_assoc. reflexivity.
Qed.

Lemma level1_without_cooperative_frames_witness :
  output (php_warning (example_globals 1 0)
            (example_env 1000 [10; 150; 30; 40; 50] []) "w" initial_state) =
  [Warning_prefix "[" 1000 "] "; Message_line "w"; Stack_Backtrace_header;
   Pointer_line 10; Pointer_line 150; Pointer_line 30;
   Stack_Backtrace_footer; Invoke_callback "w"].
Proof.
  apply (level1_without_cooperative_frames (example_globals 1 0)
           (example_env 1000 [10; 150; 30; 40; 50] []) "w"%string
           initial_state).
  - reflexivity.
  - reflexivity.
  - vm_compute. reflexivity.
  - reflexivity.
Defined.




(** X13: a level above 3 still renders the report, but its backtrace is
    empty: the header is followed at once by the footer. *)
Theorem level_above_three_prints_no_frames (g : Globals) (env : Env)
    (expanded : string) (s : State) :
  3 < php_warning_level g -> php_disable_warnings g = 0 ->
  passes_rate_gate env s ->
  output (php_warning g env expanded s) =
  resume_notice env s
  ++ [Warning_prefix (engine_tag g) (cur_time_of env) (engine_pid g);
      Message_line (vsnprintf BUF_SIZE expanded);
      Stack_Backtrace_header; Stack_Backtrace_footer]
  ++ (if in_critical_section s =? 0
      then [Invoke_callback (vsnprintf BUF_SIZE expanded)] else [])
  ++ (if die_on_fail g =? 0 then []
      else [Raise SIGPHPASSERT; Exiting_in_php_warning]).
Proof.
  intros Hlevel Hdis Hgate.
  assert (Hen : enabled g) by (split; [lia|exact Hdis]).
  rewrite (php_warning_report g env expanded s Hen Hgate).
  assert (Hnone : forall e frames k, rendering g e frames k = []).
  { intros e frames k. unfold rendering, print_demangled_adresses.
    destruct (Z.eqb_spec (php_warning_level g) 1); [lia|].
    destruct (Z.eqb_spec (php_warning_level g) 2); [lia|].
    destruct (Z.eqb_spec (php_warning_level g) 3); [lia|]. reflexivity. }
  unfold output, report, backtrace, spliced. cbn [fst].
  destruct (Z.geb_spec (php_warning_level g) 1); [|lia].
  rewrite !Hnone. destruct (_ =? _)%nat; reflexivity.
Qed.

Lemma level_above_three_prints_no_frames_witness :
  output (php_warning (example_globals 4 0) example_spliced_env "w"
            initial_state) =
  [Warning_prefix "[" 1000 "] "; Message_line "w";
   Stack_Backtrace_header; Stack_Backtrace_footer; Invoke_callback "w"].
Proof.
  apply (level_above_three_prints_no_frames (example_globals 4 0)
           example_spliced_env "w"%string initial_state).
  - simpl. lia.
  - reflexivity.
  - vm_compute. reflexivity.
Defined.

(** X14: a negative level is not treated as off: the warning is counted
    and rendered, with its prefix and message but with no backtrace block
    at all. *)
Theorem negative_level_prints_message_only (g : Globals) (env : Env)
    (expanded : string) (s : State) :
  php_warning_level g < 0 -> php_disable_warnings g = 0 ->
  passes_rate_gate env s ->
  output (php_warning g env expanded s) =
  resume_notice env s
  ++ [Warning_prefix (engine_tag g) (cur_time_of env) (engine_pid g);
      Message_line (vsnprintf BUF_SIZE expanded)]
  ++ (if in_critical_section s =? 0
      then [Invoke_callback (vsnprintf BUF_SIZE expanded)] else [])
  ++ (if die_on_fail g =? 0 then []
      else [Raise SIGPHPASSERT; Exiting_in_php_warning]).
Proof.
  intros Hlevel Hdis Hgate.
  assert (Hen : enabled g) by (split; [lia|exact Hdis]).
  rewrite (php_warning_report g env expanded s Hen Hgate).
  unfold output, report, backtrace. cbn [fst].
  destruct (Z.geb_spec (php_warning_level g) 1); [lia|]. reflexivity.
Qed.

Lemma negative_level_prints_message_only_witness :
  output (php_warning (example_globals (-1) 0) example_spliced_env "w"
            initial_state) =
  [Warning_prefix "[" 1000 "] "; Message_line "w"; Invoke_callback "w"].
Proof.
  apply (negative_level_prints_message_only (example_globals (-1) 0)
           example_spliced_env "w"%string initial_state).
  - simpl. lia.
  - reflexivity.
  - vm_compute. reflexivity.
Defined.

(** X15: at level 2 without a scheduler boundary the whole capture is
    handed to the demangler with shift 0, and when the demangler reports
    failure the raw symbols of the same frames go to descriptor 2; no
    frame is dropped as at level 1. *)
Theorem level2_falls_back_to_raw_symbols (g : Globals) (env : Env)
    (expanded : string) (s : State) :
  php_warning_level g = 2 -> php_disable_warnings g = 0 ->
  passes_rate_gate env s ->
  classify g (captured env) = List.length (captured env) ->
  output (php_warning g env expanded s) =
  resume_notice env s
  ++ [Warning_prefix (engine_tag g) (cur_time_of env) (engine_pid g);
      Message_line (vsnprintf BUF_SIZE expanded);
      Stack_Backtrace_header]
  ++ match demangled env (captured env) 0 with
     | Some lines => map Trace_str lines
     | None => [Backtrace_symbols_fd (captured env) 2]
     end
  ++ [Stack_Backtrace_footer]
  ++ (if in_critical_section s =? 0
      then [Invoke_callback (vsnprintf BUF_SIZE expanded)] else [])
  ++ (if die_on_fail g =? 0 then []
      else [Raise SIGPHPASSERT; Exiting_in_php_warning]).
Proof.
  intros Hlevel Hdis Hgate Hnone.
  assert (Hen : enabled g) by (split; [rewrite Hlevel; discriminate|exact Hdis]).
  rewrite (php_warning_report g env expanded s Hen Hgate).
  unfold output, report, backtrace, spliced, printed_frames. cbn [fst].
  rewrite Hlevel. simpl (2 =? 1). simpl (2 >=? 1). cbv iota.
  rewrite Hnone, Nat.eqb_refl.
  assert (Hr : rendering g env (captured env) 0 =
               match demangled env (captured env) 0 with
               | Some lines => map Trace_str lines
               | None => [Backtrace_symbols_fd (captured env) 2]
               end).
  { unfold rendering, print_demangled_adresses. rewrite Hlevel.
    simpl (2 =? 1). simpl (2 =? 2). cbv iota.
    rewrite Nat2Z.id, firstn_all.
    destruct (demangled env (captured env) 0);
      [rewrite for_each_emit|]; reflexivity. }
  rewrite Hr. simpl. rewrite <- !app_assoc. reflexivity.
Qed.

Lemma level2_falls_back_to_raw_symbols_witness :
  output (php_warning (example_globals 2 0) (example_env 1000 [10; 20; 30] [])
            "w" initial_state) =
  [Warning_prefix "[" 1000 "] "; Message_line "w"; Stack_Backtrace_header;
   Backtrace_symbols_fd [10; 20; 30] 2;
   Stack_Backtrace_footer; Invoke_callback "w"].
Proof.
  apply (level2_falls_back_to_raw_symbols (example_globals 2 0)
           (example_env 1000 [10; 20; 30] []) "w"%string initial_state).
  - reflexivity.
  - reflexivity.
  - vm_compute. reflexivity.
  - reflexivity.
Defined.

(** * The message buffer *)

Lemma substring_0_length (n : nat) : forall s,
  (String.length (substring 0 n s) <= n)%nat.
Proof.
  induction n as [|n IH]; intros s; destruct s as [|c s]; simpl; try lia.
  specialize (IH s). lia.
Qed.

Lemma substring_0_prefix (n : nat) : forall s,
  prefix (substring 0 n s) s = true.
Proof.
  induction n as [|n IH]; intros s; destruct s as [|c s]; simpl;
    try reflexivity.
  destruct (ascii_dec c c); [apply IH|congruence].
Qed.

Lemma message_texts_app o1 o2 :
  message_texts (o1 ++ o2) = message_texts o1 ++ message_texts o2.
Proof. apply flat_map_app. Qed.

Lemma message_texts_frames l :
  Forall (fun e => is_frame_event e = true) l -> message_texts l = [].
Proof.
  induction 1 as [|e l He _ IH]; [reflexivity|].
  simpl. rewrite IH. destruct e; simpl in *; congruence.
Qed.

Lemma message_texts_backtrace g env : message_texts (backtrace g env) = [].
Proof.
  unfold backtrace. destruct (php_warning_level g >=? 1); [|reflexivity].
  simpl. rewrite message_texts_app.
  now rewrite (message_texts_frames _ (spliced_frame_events g env)).
Qed.

(** X16: the message of a report and the text given to the callback are
    cut to the buffer: at most [BUF_SIZE - 1] = 999 characters, the first
    ones of the expanded message. *)
Theorem message_text_fits_buffer (g : Globals) (env : Env)
    (expanded : string) (s : State) :
  Forall (fun m => (String.length m <= 999)%nat /\ prefix m expanded = true)
    (message_texts (output (php_warning g env expanded s))).
Proof.
  assert (Hbuf : (String.length (vsnprintf BUF_SIZE expanded) <= 999)%nat
                 /\ prefix (vsnprintf BUF_SIZE expanded) expanded = true).
  { unfold vsnprintf. change (BUF_SIZE - 1)%nat with 999%nat.
    split; [apply substring_0_length|apply substring_0_prefix]. }
  assert (Hnotice : message_texts (resume_notice env s) = []).
  { destruct (resume_notice_cases env s) as [-> | ->]; reflexivity. }
  destruct ((php_warning_level g =? 0) || negb (php_disable_warnings g =? 0))
    eqn:Egate.
  { rewrite php_warning_disabled by exact Egate. constructor. }
  rewrite (php_warning_enabled g env expanded s (gate_open_enabled g Egate)).
  cbv zeta. destruct (_ >=? warnings_time_limit); unfold output; cbn [fst];
    rewrite message_texts_app, Hnotice.
  - destruct (_ =? warnings_time_limit); constructor.
  - change (report g env expanded (in_critical_section s))
      with ([Warning_prefix (engine_tag g) (cur_time_of env) (engine_pid g);
             Message_line (vsnprintf BUF_SIZE expanded)]
            ++ backtrace g env
            ++ (if in_critical_section s =? 0
                then [Invoke_callback (vsnprintf BUF_SIZE expanded)] else [])
            ++ (if die_on_fail g =? 0 then []
                else [Raise SIGPHPASSERT; Exiting_in_php_warning])).
    rewrite !message_texts_app, message_texts_backtrace.
    destruct (in_critical_section s =? 0), (die_on_fail g =? 0); simpl;
      repeat (apply Forall_cons; [exact Hbuf|]); apply Forall_nil.
Qed.

(** * Bounds and composition *)

Lemma pointer_lines_map l :
  filter is_pointer_line (map Pointer_line l) = map Pointer_line l.
Proof. induction l as [|a l IH]; simpl; [reflexivity|now rewrite IH]. Qed.

Lemma pointer_lines_rendering g env frames num_shift :
  filter is_pointer_line (rendering g env frames num_shift) =
  if php_warning_level g =? 1 then map Pointer_line frames else [].
Proof.
  destruct (Z.eqb_spec (php_warning_level g) 1) as [E|E].
  - rewrite rendering_level1 by exact E. apply pointer_lines_map.
  - unfold rendering, print_demangled_adresses.
    destruct (Z.eqb_spec (php_warning_level g) 1); [contradiction|].
    destruct (php_warning_level g =? 2).
    { destruct (demangled env _ num_shift); [|reflexivity].
      rewrite for_each_emit. unfold output. cbn [fst].
      induction l as [|x l IH]; [reflexivity|exact IH]. }
    destruct (php_warning_level g =? 3); [|reflexivity].
    destruct (proc_self_exe env); [|reflexivity].
    destruct (fork_pid env =? 0); [reflexivity|].
    destruct (fork_pid env >? 0); reflexivity.
Qed.

Lemma pointer_lines_spliced g env :
  (List.length (filter is_pointer_line (spliced g env))
   <= (if (php_warning_level g =? 1)%Z
       then List.length (printed_frames g env)
            + List.length (cooperative env)
       else 0))%nat.
Proof.
  unfold spliced. set (F := printed_frames g env).
  destruct (classify g F =? List.length F)%nat.
  - rewrite pointer_lines_rendering.
    destruct (php_warning_level g =? 1); [rewrite length_map|simpl]; lia.
  - rewrite !filter_app, !pointer_lines_rendering.
    destruct (php_warning_level g =? 1); [|simpl; lia].
    rewrite !length_app, !length_map, length_firstn, length_skipn. lia.
Qed.

(** X17: whatever the level, the stacks and the state, one call writes
    at most 126 bare address lines: at most 62 physical frames, the
    64-entry buffer less the two dropped at level 1, and at most 64
    cooperative frames. *)
Theorem at_most_126_address_lines (g : Globals) (env : Env)
    (expanded : string) (s : State) :
  (List.length (filter is_pointer_line (output (php_warning g env expanded s)))
   <= 126)%nat.
Proof.
  assert (Hnotice : filter is_pointer_line (resume_notice env s) = []).
  { destruct (resume_notice_cases env s) as [-> | ->]; reflexivity. }
  destruct ((php_warning_level g =? 0) || negb (php_disable_warnings g =? 0))
    eqn:Egate.
  { rewrite php_warning_disabled by exact Egate. simpl. lia. }
  rewrite (php_warning_enabled g env expanded s (gate_open_enabled g Egate)).
  cbv zeta. destruct (_ >=? warnings_time_limit); unfold output; cbn [fst];
    rewrite filter_app, Hnotice.
  - destruct (_ =? warnings_time_limit); simpl; lia.
  - change (report g env expanded (in_critical_section s))
      with ([Warning_prefix (engine_tag g) (cur_time_of env) (engine_pid g);
             Message_line (vsnprintf BUF_SIZE expanded)]
            ++ backtrace g env
            ++ (if in_critical_section s =? 0
                then [Invoke_callback (vsnprintf BUF_SIZE expanded)] else [])
            ++ (if die_on_fail g =? 0 then []
                else [Raise SIGPHPASSERT; Exiting_in_php_warning])).
    rewrite !filter_app, !length_app.
    assert (Htail : List.length
                      (filter is_pointer_line
                         (if in_critical_section s =? 0
                          then [Invoke_callback (vsnprintf BUF_SIZE expanded)]
                          else []))
                    = 0%nat
                    /\ List.length
                         (filter is_pointer_line
                            (if die_on_fail g =? 0 then []
                             else [Raise SIGPHPASSERT; Exiting_in_php_warning]))
                       = 0%nat).
    { destruct (in_critical_section s =? 0), (die_on_fail g =? 0);
        split; reflexivity. }
    destruct Htail as [-> ->].
    assert (Hbt : (List.length (filter is_pointer_line (backtrace g env))
                   <= 126)%nat).
    { unfold backtrace. destruct (php_warning_level g >=? 1); [|simpl; lia].
      cbn [filter is_pointer_line]. rewrite filter_app. cbn [filter is_pointer_line].
      rewrite length_app. cbn [List.length].
      pose proof (pointer_lines_spliced g env) as Hs.
      assert (Hcap : (List.length (captured env) <= 64)%nat).
      { unfold captured, fast_backtrace, buffer_size. rewrite length_firstn. lia. }
      assert (Hcoop : (List.length (cooperative env) <= 64)%nat).
      { unfold cooperative, get_resumable_stack, buffer_size.
        rewrite length_firstn. lia. }
      unfold printed_frames in Hs.
      destruct (php_warning_level g =? 1); [|lia].
      rewrite length_firstn in Hs. lia. }
    simpl. lia.
Qed.

Lemma php_warning_depth g env expanded s :
  in_critical_section (final_state (outcome (php_warning g env expanded s)))
  = in_critical_section s.
Proof.
  destruct ((php_warning_level g =? 0) || negb (php_disable_warnings g =? 0))
    eqn:Egate.
  { rewrite php_warning_disabled by exact Egate. reflexivity. }
  rewrite (php_warning_enabled g env expanded s (gate_open_enabled g Egate)).
  cbv zeta. destruct (_ >=? warnings_time_limit).
  - apply window_state_depth.
  - destruct (die_on_fail g =? 0); apply window_state_depth.
Qed.

(** X18: the guard depth is kept by any sequence of warnings, also when
    one of them exits the process, and by a fatal assertion: at the exit
    the depth is the one the first call was entered with. *)
Theorem depth_kept_by_sequences_and_asserts (g : Globals) :
  (forall calls s,
     in_critical_section (final_state (outcome (php_warnings g calls s)))
     = in_critical_section s)
  /\ (forall env msg file line s,
        in_critical_section
          (final_state (outcome (php_assert__ g env msg file line s)))
        = in_critical_section s).
Proof.
  split.
  - unfold php_warnings. induction calls as [|[env expanded] t IH]; intros s.
    + reflexivity.
    + cbn [for_each fst snd].
      pose proof (php_warning_depth g env expanded s) as Hd.
      unfold bind.
      destruct (php_warning g env expanded s) as [o [[] s1|c s1]];
        cbn [outcome snd final_state] in Hd.
      * specialize (IH s1).
        destruct (for_each t _ s1) as [o2 r]. cbn [outcome snd] in *.
        now rewrite IH.
      * exact Hd.
  - intros env msg file line s. unfold php_assert__.
    pose proof (php_warning_depth g env (assertion_text msg file line) s) as Hd.
    unfold bind at 1.
    destruct (php_warning g env (assertion_text msg file line) s)
      as [o [[] s1|c s1]]; cbn [outcome snd final_state] in Hd; exact Hd.
Qed.
